(** * smart-recipe-gen-backend: the request handlers of [app.py]

    A shallow embedding of the Flask handlers of [src/app.py] and the
    properties of the recipe aggregation pipeline and of the favorites
    ledger.

    Python values are the values a JSON body or a BSON document can hold
    (floats and dates are left out); a dictionary is an association list in
    insertion order.  A Python exception is a value of [exn]; a handler
    that lets one escape answers with Flask's internal-server-error page.
    The collaborators that are not code of this repository (the Gemini
    model, the [json] module, the text index of MongoDB, werkzeug's password
    hash) are the fields of a record [services] that every handler takes. *)

From Stdlib Require Import ZArith String Ascii DecimalString.
From stdpp Require Import base strings list gmap.

Local Open Scope string_scope.
Local Open Scope list_scope.
Set Warnings "-register-all,-clear-no-such-hyp".

(** ** Python values *)

Inductive pyval : Type :=
| PNone
| PBool (b : bool)
| PInt (z : Z)
| PStr (s : string)
| PList (l : list pyval)
| PDict (d : list (string * pyval))
| POid (hex : string).

(** A MongoDB document and a JSON object: keys in insertion order. *)
Abbreviation doc := (list (string * pyval)).

Inductive exn : Type :=
| KeyError (k : string)
| TypeError
| AttributeError
| InvalidId
| JSONDecodeError
| ServiceError
| WriteError
| DuplicateKeyError.

Inductive res (A : Type) : Type :=
| Ok (a : A)
| Raise (e : exn).
Arguments Ok {A} a.
Arguments Raise {A} e.

Definition rbind {A B} (r : res A) (k : A -> res B) : res B :=
  match r with
  | Ok a => k a
  | Raise e => Raise e
  end.

Declare Scope res_scope.
Delimit Scope res_scope with res.
Notation "'let?' x := r 'in' k" := (rbind r (fun x => k))
  (at level 10, x name, r at level 100, k at level 200) : res_scope.

Fixpoint mapM {A B} (f : A -> res B) (l : list A) : res (list B) :=
  match l with
  | [] => Ok []
  | x :: l' =>
      match f x with
      | Ok y =>
          match mapM f l' with
          | Ok ys => Ok (y :: ys)
          | Raise e => Raise e
          end
      | Raise e => Raise e
      end
  end.

(** ** Equality and truth of values *)

Fixpoint pyval_eqb (a b : pyval) {struct a} : bool :=
  match a, b with
  | PNone, PNone => true
  | PBool x, PBool y => Bool.eqb x y
  | PInt x, PInt y => Z.eqb x y
  | PStr x, PStr y => String.eqb x y
  | POid x, POid y => String.eqb x y
  | PList l, PList m =>
      (fix go (l m : list pyval) {struct l} : bool :=
         match l, m with
         | [], [] => true
         | x :: l', y :: m' => pyval_eqb x y && go l' m'
         | _, _ => false
         end) l m
  | PDict d, PDict e =>
      (fix go (d e : doc) {struct d} : bool :=
         match d, e with
         | [], [] => true
         | (k, x) :: d', (k', y) :: e' =>
             String.eqb k k' && pyval_eqb x y && go d' e'
         | _, _ => false
         end) d e
  | _, _ => false
  end.

(** [bool(v)] *)
Definition truthy (v : pyval) : bool :=
  match v with
  | PNone => false
  | PBool b => b
  | PInt z => negb (Z.eqb z 0)
  | PStr s => negb (String.eqb s EmptyString)
  | PList l => match l with [] => false | _ => true end
  | PDict d => match d with [] => false | _ => true end
  | POid _ => true
  end.

(** [a or b] *)
Definition py_or (a b : pyval) : pyval := if truthy a then a else b.

(** ** Dictionaries *)

Fixpoint dict_get (d : doc) (k : string) : option pyval :=
  match d with
  | [] => None
  | (k', v) :: d' => if String.eqb k' k then Some v else dict_get d' k
  end.

Definition dict_has (d : doc) (k : string) : bool :=
  match dict_get d k with Some _ => true | None => false end.

(** [d[k] = v]: an existing key keeps its place. *)
Fixpoint dict_set (d : doc) (k : string) (v : pyval) : doc :=
  match d with
  | [] => [(k, v)]
  | (k', v') :: d' =>
      if String.eqb k' k then (k, v) :: d' else (k', v') :: dict_set d' k v
  end.

Fixpoint dict_del (d : doc) (k : string) : doc :=
  match d with
  | [] => []
  | (k', v') :: d' =>
      if String.eqb k' k then dict_del d' k else (k', v') :: dict_del d' k
  end.

(** [d.get(k)] and [d.get(k, default)] on a dictionary. *)
Definition dict_get_or (d : doc) (k : string) (default : pyval) : pyval :=
  match dict_get d k with Some v => v | None => default end.

(** [v[k]] with a string subscript. *)
Definition py_getitem (v : pyval) (k : string) : res pyval :=
  match v with
  | PDict d => match dict_get d k with Some x => Ok x | None => Raise (KeyError k) end
  | _ => Raise TypeError
  end.

(** [v.get(k, default)]: only a dictionary has the method. *)
Definition py_get (v : pyval) (k : string) (default : pyval) : res pyval :=
  match v with
  | PDict d => Ok (dict_get_or d k default)
  | _ => Raise AttributeError
  end.

(** [k in v] for a string [k]: a key of a dictionary, an element of a list,
    a substring of a string. *)
Definition py_contains (v : pyval) (k : string) : res bool :=
  match v with
  | PDict d => Ok (dict_has d k)
  | PList l => Ok (existsb (pyval_eqb (PStr k)) l)
  | PStr s => Ok (match String.index 0 k s with Some _ => true | None => false end)
  | _ => Raise TypeError
  end.

(** [iter(v)] *)
Definition py_iter (v : pyval) : res (list pyval) :=
  match v with
  | PList l => Ok l
  | PDict d => Ok (map (fun kv => PStr (fst kv)) d)
  | PStr s => Ok (map (fun c => PStr (String c EmptyString)) (list_ascii_of_string s))
  | _ => Raise TypeError
  end.

(** ** Strings *)

Definition lower_ascii (c : ascii) : ascii :=
  let n := nat_of_ascii c in
  if (65 <=? n)%nat && (n <=? 90)%nat then ascii_of_nat (n + 32) else c.

(** [s.lower()], on the ASCII letters. *)
Fixpoint lower (s : string) : string :=
  match s with
  | EmptyString => EmptyString
  | String c s' => String (lower_ascii c) (lower s')
  end.

(** [v.lower()]: only a string has the method. *)
Definition py_lower (v : pyval) : res string :=
  match v with
  | PStr s => Ok (lower s)
  | _ => Raise AttributeError
  end.

Fixpoint join_strings (sep : string) (l : list string) : string :=
  match l with
  | [] => EmptyString
  | [s] => s
  | s :: l' => s +:+ sep +:+ join_strings sep l'
  end.

Definition as_str (v : pyval) : res string :=
  match v with
  | PStr s => Ok s
  | _ => Raise TypeError
  end.

(** [sep.join(v)] *)
Definition py_join (sep : string) (v : pyval) : res string :=
  (let? items := py_iter v in
   let? strs := mapM as_str items in
   Ok (join_strings sep strs))%res.

Definition is_space (c : ascii) : bool :=
  let n := nat_of_ascii c in
  ((9 <=? n)%nat && (n <=? 13)%nat) || ((28 <=? n)%nat && (n <=? 32)%nat).

Fixpoint lstrip (s : string) : string :=
  match s with
  | EmptyString => EmptyString
  | String c s' => if is_space c then lstrip s' else s
  end.

Fixpoint string_rev (s : string) : string :=
  match s with
  | EmptyString => EmptyString
  | String c s' => string_rev s' +:+ String c EmptyString
  end.

(** [s.strip()] *)
Definition strip (s : string) : string :=
  string_rev (lstrip (string_rev (lstrip s))).

(** [s.replace(old, new)] for a non-empty [old]: [skip] counts the
    characters of a match that are still to be passed over. *)
Fixpoint replace_from (old new : string) (skip : nat) (s : string) : string :=
  match s with
  | EmptyString => EmptyString
  | String c s' =>
      match skip with
      | S n => replace_from old new n s'
      | O =>
          if String.prefix old s
          then new +:+ replace_from old new (String.length old - 1) s'
          else String c (replace_from old new 0 s')
      end
  end.

Definition replace (old new s : string) : string := replace_from old new 0 s.

(** ** [str] and [repr] *)

Definition dquote : ascii := Ascii false true false false false true false false.
Definition dq : string := String dquote EmptyString.

Definition has_char (c : ascii) (s : string) : bool :=
  existsb (Ascii.eqb c) (list_ascii_of_string s).

Definition hex_digit (n : nat) : ascii :=
  nth n (list_ascii_of_string "0123456789abcdef") "0"%char.

Definition escape_char (quote c : ascii) : string :=
  let n := nat_of_ascii c in
  if Ascii.eqb c "\"%char then "\\"
  else if Ascii.eqb c quote then String "\"%char (String c EmptyString)
  else if (n =? 10)%nat then "\n"
  else if (n =? 13)%nat then "\r"
  else if (n =? 9)%nat then "\t"
  else if (n <? 32)%nat || (n =? 127)%nat
       then "\x" +:+ String (hex_digit (n / 16)) (String (hex_digit (n mod 16)) EmptyString)
  else String c EmptyString.

Fixpoint escape_string (quote : ascii) (s : string) : string :=
  match s with
  | EmptyString => EmptyString
  | String c s' => escape_char quote c +:+ escape_string quote s'
  end.

(** [repr(s)]: single quotes, unless the text holds one and no double
    quote. *)
Definition repr_str (s : string) : string :=
  let quote :=
    if has_char "'"%char s && negb (has_char dquote s) then dquote else "'"%char in
  String quote (escape_string quote s +:+ String quote EmptyString).

Fixpoint py_repr (v : pyval) : string :=
  match v with
  | PNone => "None"
  | PBool true => "True"
  | PBool false => "False"
  | PInt z => NilZero.string_of_int (Z.to_int z)
  | PStr s => repr_str s
  | PList l => "[" +:+ join_strings ", " (map py_repr l) +:+ "]"
  | PDict d =>
      "{" +:+ join_strings ", "
               (map (fun kv => repr_str (fst kv) +:+ ": " +:+ py_repr (snd kv)) d)
          +:+ "}"
  | POid h => "ObjectId('" +:+ h +:+ "')"
  end.

(** [str(v)], which is also what an f-string field [{v}] prints. *)
Definition py_str (v : pyval) : string :=
  match v with
  | PStr s => s
  | POid h => h
  | _ => py_repr v
  end.

(** ** Collaborators and the state of the world *)

(** What the handlers call and this repository does not define.
    [text_model] is [None] when [GOOGLE_API_KEY] is unset; the model maps a
    prompt to the text of its reply, [None] when [generate_content] or
    [response.text] raises.  [json_loads] and [json_dumps] are [None] where
    the [json] module raises.  [text_search s d] says whether document [d]
    satisfies [{'$text': {'$search': s}}]. *)
Record services : Type := {
  text_model : option (string -> option string);
  json_loads : string -> option pyval;
  json_dumps : pyval -> option string;
  text_search : string -> doc -> bool;
  generate_password_hash : string -> string
}.

Inductive collection : Type := StoredRecipes | recipes | users.

Record database : Type := {
  db_StoredRecipes : list doc;
  db_recipes : list doc;
  db_users : list doc
}.

Definition coll (db : database) (c : collection) : list doc :=
  match c with
  | StoredRecipes => db_StoredRecipes db
  | recipes => db_recipes db
  | users => db_users db
  end.

Definition set_coll (db : database) (c : collection) (l : list doc) : database :=
  match c with
  | StoredRecipes => {| db_StoredRecipes := l; db_recipes := db_recipes db; db_users := db_users db |}
  | recipes => {| db_StoredRecipes := db_StoredRecipes db; db_recipes := l; db_users := db_users db |}
  | users => {| db_StoredRecipes := db_StoredRecipes db; db_recipes := db_recipes db; db_users := l |}
  end.

(** The database, the counter the driver draws new identifiers from, and
    the prompts sent to the generation service so far (latest last). *)
Record world : Type := {
  mongo : database;
  oid_counter : nat;
  generate_calls : list string
}.

Definition M (A : Type) : Type := world -> res A * world.

Definition ret {A} (a : A) : M A := fun w => (Ok a, w).

Definition raise {A} (e : exn) : M A := fun w => (Raise e, w).

Definition lift {A} (r : res A) : M A := fun w => (r, w).

Definition bind {A B} (m : M A) (k : A -> M B) : M B :=
  fun w =>
    match m w with
    | (Ok a, w') => k a w'
    | (Raise e, w') => (Raise e, w')
    end.

Declare Scope m_scope.
Delimit Scope m_scope with M.
Notation "'let*' x := m 'in' k" := (bind m (fun x => k))
  (at level 10, x name, m at level 100, k at level 200) : m_scope.

Definition get_db : M database := fun w => (Ok (mongo w), w).

Definition put_db (db : database) : M unit :=
  fun w => (Ok tt, {| mongo := db; oid_counter := oid_counter w;
                      generate_calls := generate_calls w |}).

(** ** Object identifiers *)

Definition is_hex (c : ascii) : bool :=
  let n := nat_of_ascii c in
  ((48 <=? n)%nat && (n <=? 57)%nat) || ((65 <=? n)%nat && (n <=? 70)%nat)
  || ((97 <=? n)%nat && (n <=? 102)%nat).

(** The white space [bytes.fromhex] skips between two bytes *)
Definition is_hex_space (c : ascii) : bool :=
  let n := nat_of_ascii c in
  ((9 <=? n)%nat && (n <=? 13)%nat) || (n =? 32)%nat.

(** [bytes.fromhex(s)], the bytes written back as lowercase hexadecimal
    digits: pairs of digits, with white space allowed between the pairs. *)
Fixpoint fromhex (s : string) : option string :=
  match s with
  | EmptyString => Some EmptyString
  | String c s' =>
      if is_hex_space c then fromhex s'
      else
        match s' with
        | EmptyString => None
        | String c' s'' =>
            if is_hex c && is_hex c'
            then
              match fromhex s'' with
              | Some h => Some (String (lower_ascii c) (String (lower_ascii c') h))
              | None => None
              end
            else None
        end
  end.

(** The identifier a string spells, as [ObjectId(s)] reads it: the string
    has 24 characters and [bytes.fromhex] accepts it. *)
Definition parse_oid (s : string) : option string :=
  if (String.length s =? 24)%nat then fromhex s else None.

Fixpoint hex_of_nat (fuel n : nat) : string :=
  match fuel with
  | O => EmptyString
  | S fuel' => hex_of_nat fuel' (n / 16) +:+ String (hex_digit (n mod 16)) EmptyString
  end.

(** The identifier drawn at counter value [n]: 24 hexadecimal digits. *)
Definition oid_hex (n : nat) : string := hex_of_nat 24 n.

Definition fresh_oid : M pyval :=
  fun w => (Ok (POid (oid_hex (oid_counter w))),
            {| mongo := mongo w; oid_counter := S (oid_counter w);
               generate_calls := generate_calls w |}).

(** [ObjectId(v)]: a new identifier for [None], the identifier itself, or
    the identifier a string spells. *)
Definition ObjectId (v : pyval) : M pyval :=
  match v with
  | PNone => fresh_oid
  | POid h => ret (POid h)
  | PStr s =>
      match parse_oid s with
      | Some h => ret (POid h)
      | None => raise InvalidId
      end
  | _ => raise TypeError
  end.

(** [ObjectId.is_valid(v)] *)
Definition ObjectId_is_valid (v : pyval) : bool :=
  match v with
  | POid _ => true
  | PStr s => match parse_oid s with Some _ => true | None => false end
  | _ => false
  end.

(** ** MongoDB: the queries and updates the handlers issue *)

(** A field satisfies an equality condition when it is the value or an
    array that holds it. *)
Definition field_matches (dv qv : pyval) : bool :=
  pyval_eqb dv qv
  || match dv with PList l => existsb (pyval_eqb qv) l | _ => false end.

Definition cond_matches (sv : services) (d : doc) (cond : string * pyval) : bool :=
  let (k, qv) := cond in
  if String.eqb k "$text" then
    match qv with
    | PDict t =>
        match dict_get t "$search" with
        | Some (PStr s) => text_search sv s d
        | _ => false
        end
    | _ => false
    end
  else
    match dict_get d k with
    | Some dv => field_matches dv qv
    | None => pyval_eqb qv PNone
    end.

Definition doc_matches (sv : services) (query d : doc) : bool :=
  forallb (cond_matches sv d) query.

(** [collection.find(query)] *)
Definition find (sv : services) (db : database) (c : collection) (query : doc) : list doc :=
  List.filter (doc_matches sv query) (coll db c).

(** [collection.find(query).limit(n)] *)
Definition find_limit (sv : services) (db : database) (c : collection) (query : doc) (n : nat) : list doc :=
  take n (find sv db c query).

(** [collection.find_one(query)] *)
Definition find_one (sv : services) (c : collection) (query : doc) : M (option doc) :=
  fun w => (Ok (head (find sv (mongo w) c query)), w).

Fixpoint update_first (p : doc -> bool) (f : doc -> res doc) (l : list doc) : res (list doc) :=
  match l with
  | [] => Ok []
  | d :: l' =>
      if p d then
        match f d with
        | Ok d' => Ok (d' :: l')
        | Raise e => Raise e
        end
      else
        match update_first p f l' with
        | Ok l'' => Ok (d :: l'')
        | Raise e => Raise e
        end
  end.

(** [{'$addToSet': {k: v}}] *)
Definition add_to_set (k : string) (v : pyval) (d : doc) : res doc :=
  match dict_get d k with
  | None => Ok (dict_set d k (PList [v]))
  | Some (PList l) =>
      if existsb (pyval_eqb v) l then Ok d else Ok (dict_set d k (PList (l ++ [v])))
  | Some _ => Raise WriteError
  end.

(** [{'$pull': {k: v}}] for a value [v] that is no condition document *)
Definition pull (k : string) (v : pyval) (d : doc) : res doc :=
  match dict_get d k with
  | None => Ok d
  | Some (PList l) =>
      Ok (dict_set d k (PList (List.filter (fun x => negb (pyval_eqb x v)) l)))
  | Some _ => Raise WriteError
  end.

(** [collection.update_one(query, update)]: the first match is updated. *)
Definition update_one (sv : services) (c : collection) (query : doc)
    (update : doc -> res doc) : M unit :=
  fun w =>
    match update_first (doc_matches sv query) update (coll (mongo w) c) with
    | Ok l => put_db (set_coll (mongo w) c l) w
    | Raise e => (Raise e, w)
    end.

Fixpoint remove_first (p : doc -> bool) (l : list doc) : list doc :=
  match l with
  | [] => []
  | d :: l' => if p d then l' else d :: remove_first p l'
  end.

(** [collection.delete_one(query)] *)
Definition delete_one (sv : services) (c : collection) (query : doc) : M unit :=
  fun w => put_db (set_coll (mongo w) c (remove_first (doc_matches sv query) (coll (mongo w) c))) w.

(** [collection.insert_one(d)]: a document without ["_id"] is given a new
    one; the result is [inserted_id]. *)
Definition insert_one (c : collection) (d : doc) : M pyval :=
  match dict_get d "_id" with
  | Some i =>
      fun w =>
        if existsb (fun d' => match dict_get d' "_id" with
                              | Some j => pyval_eqb i j
                              | None => false
                              end) (coll (mongo w) c)
        then (Raise DuplicateKeyError, w)
        else (let* _ := put_db (set_coll (mongo w) c (coll (mongo w) c ++ [d])) in
              ret i)%M w
  | None =>
      (let* i := fresh_oid in
       let* db := get_db in
       let* _ := put_db (set_coll db c (coll db c ++ [("_id", i) :: d])) in
       ret i)%M
  end.

Fixpoint forM {A B} (f : A -> M B) (l : list A) : M (list B) :=
  match l with
  | [] => ret []
  | x :: l' =>
      (let* y := f x in
       let* ys := forM f l' in
       ret (y :: ys))%M
  end.

(** ** Responses *)

Record response : Type := { status : nat; body : pyval }.

(** [jsonify(v)], and [jsonify(v), code] *)
Definition jsonify (v : pyval) : response := {| status := 200; body := v |}.

Definition jsonify_status (v : pyval) (code : nat) : response :=
  {| status := code; body := v |}.

(** ** Helper functions *)

(** Lines 49-53 of [find_matching_recipes]: the query document. *)
Definition search_filter (user_ingredients cuisine : pyval) : res doc :=
  (let? search_query := py_join " " user_ingredients in
   let query := [("$text", PDict [("$search", PStr search_query)])] in
   if truthy cuisine then
     let? c := py_lower cuisine in
     if String.eqb c "any" then Ok query
     else Ok (dict_set query "cuisine" cuisine)
   else Ok query)%res.

Definition in_collections (name : string) (collections : list string) : bool :=
  existsb (String.eqb name) collections.

(** Lines 55-59 of [find_matching_recipes] *)
Definition fetch_matches (sv : services) (db : database) (query : doc)
    (collections : list string) : list doc :=
  let matches := [] in
  let matches :=
    if in_collections "StoredRecipes" collections
    then matches ++ find_limit sv db StoredRecipes query 3 else matches in
  let matches :=
    if in_collections "recipes" collections
    then matches ++ find_limit sv db recipes query 3 else matches in
  matches.

Definition find_matching_recipes (sv : services)
    (user_ingredients dietary_prefs cuisine : pyval) (collections : list string)
    : M (list doc) :=
  (let* query := lift (search_filter user_ingredients cuisine) in
   let* db := get_db in
   ret (fetch_matches sv db query collections))%M.

(** ** The recipe normalizer *)

(** [recipe.get('steps') or recipe.get('instructions')], lines 139 and 278 *)
Definition steps_or_instructions (recipe : doc) : pyval :=
  py_or (dict_get_or recipe "steps" PNone) (dict_get_or recipe "instructions" PNone).

(** The f-string of lines 142 and 281 *)
Definition nutritional_info (recipe : doc) : res pyval :=
  (let? calories := py_get (dict_get_or recipe "nutrition" (PDict [])) "calories" (PStr "N/A") in
   let? protein := py_get (dict_get_or recipe "nutrition" (PDict [])) "protein" (PStr "N/A") in
   Ok (PStr ("Calories: " +:+ py_str calories +:+ ", Protein: " +:+ py_str protein +:+ "g")))%res.

(** The f-string of lines 143 and 282 *)
Definition serves (recipe : doc) : pyval :=
  PStr ("Serves " +:+ py_str (dict_get_or recipe "servings" PNone)).

(** Lines 273-283 of [generate_recipes]: one database match in the shape
    the frontend expects. *)
Definition format_db_match (recipe : doc) : res pyval :=
  (let? oid := py_getitem (PDict recipe) "_id" in
   let? title := py_getitem (PDict recipe) "title" in
   let? nutrition := nutritional_info recipe in
   Ok (PDict [("id", PStr (py_str oid));
              ("title", title);
              ("description", dict_get_or recipe "description" PNone);
              ("ingredients", dict_get_or recipe "ingredients" PNone);
              ("instructions", steps_or_instructions recipe);
              ("cookingTime", dict_get_or recipe "cooking_time" PNone);
              ("difficulty", dict_get_or recipe "difficulty" PNone);
              ("nutritionalInfo", nutrition);
              ("servings", serves recipe)]))%res.

(** Lines 134-144 of [get_favorites] *)
Definition format_favorite (recipe : doc) : res pyval :=
  (let? oid := py_getitem (PDict recipe) "_id" in
   let? nutrition := nutritional_info recipe in
   Ok (PDict [("id", oid);
              ("title", dict_get_or recipe "title" PNone);
              ("description", dict_get_or recipe "description" PNone);
              ("ingredients", dict_get_or recipe "ingredients" PNone);
              ("instructions", steps_or_instructions recipe);
              ("cookingTime", dict_get_or recipe "cooking_time" PNone);
              ("difficulty", dict_get_or recipe "difficulty" PNone);
              ("nutritionalInfo", nutrition);
              ("servings", serves recipe)]))%res.

(** ** The duplicate filter *)

(** [recipe['title'].lower()] *)
Definition title_key (recipe : pyval) : res string :=
  (let? t := py_getitem recipe "title" in py_lower t)%res.

(** Line 311: the set comprehension over [final_recipes] *)
Definition existing_titles_of (final_recipes : list pyval) : res (gset string) :=
  (let? keys := mapM title_key final_recipes in Ok (list_to_set keys))%res.

(** Lines 312-315: the loop over [ai_recipes].  The result is
    [final_recipes] and [existing_titles] as the loop leaves them, and
    whether it ran to its end or an exception stopped it. *)
Fixpoint dedup_loop (existing_titles : gset string) (final_recipes : list pyval)
    (ai_recipes : list pyval) : list pyval * gset string * res unit :=
  match ai_recipes with
  | [] => (final_recipes, existing_titles, Ok tt)
  | recipe :: rest =>
      match title_key recipe with
      | Raise e => (final_recipes, existing_titles, Raise e)
      | Ok t =>
          if decide (t ∈ existing_titles)
          then dedup_loop existing_titles final_recipes rest
          else dedup_loop ({[t]} ∪ existing_titles) (final_recipes ++ [recipe]) rest
      end
  end.

(** Lines 311-315 *)
Definition merge_candidates (final_recipes : list pyval) (ai_recipes : pyval)
    : list pyval * res unit :=
  match existing_titles_of final_recipes with
  | Raise e => (final_recipes, Raise e)
  | Ok existing_titles =>
      match py_iter ai_recipes with
      | Raise e => (final_recipes, Raise e)
      | Ok candidates =>
          let '(final_recipes', _, outcome) :=
            dedup_loop existing_titles final_recipes candidates in
          (final_recipes', outcome)
      end
  end.

(** ** The handlers *)

Definition nl : string := String "010"%char EmptyString.

Definition quoted (s : string) : string := dq +:+ s +:+ dq.

(** Lines 287-299: the instruction sent to the model. *)
Definition build_prompt (sv : services) (ingredients dietary servings cuisine : pyval)
    (db_matches : list doc) : res string :=
  (let? titles := mapM (fun r => py_getitem (PDict r) "title") db_matches in
   let? db_matches_string :=
     match json_dumps sv (PList titles) with
     | Some s => Ok s
     | None => Raise TypeError
     end in
   let? ingredients_text := py_join ", " ingredients in
   let? dietary_text :=
     if truthy dietary then py_join ", " dietary else Ok "None" in
   Ok (nl +:+ "    You are a creative recipe assistant. A user wants to cook with: "
       +:+ ingredients_text +:+ "." +:+ nl
       +:+ "    They want a " +:+ py_str cuisine +:+ " style recipe for "
       +:+ py_str servings +:+ " people, with dietary preferences: "
       +:+ dietary_text +:+ "." +:+ nl
       +:+ "    I have already found these recipes in my database:" +:+ nl
       +:+ "    --- DATABASE RECIPES ---" +:+ nl
       +:+ "    " +:+ db_matches_string +:+ nl
       +:+ "    --- END DATABASE RECIPES ---" +:+ nl
       +:+ "    Please generate 6-7 NEW and DIFFERENT creative recipes that also fit the user's request. Do NOT repeat the recipes I provided above." +:+ nl
       +:+ "    For each new recipe, provide: " +:+ quoted "title" +:+ ", "
       +:+ quoted "description" +:+ ", " +:+ quoted "ingredients"
       +:+ " (list of objects with " +:+ quoted "name" +:+ " and "
       +:+ quoted "quantity" +:+ "), " +:+ quoted "instructions" +:+ " (list), "
       +:+ quoted "cookingTime" +:+ " (integer), " +:+ quoted "difficulty" +:+ ", "
       +:+ quoted "nutritionalInfo" +:+ ", " +:+ quoted "servings" +:+ "." +:+ nl
       +:+ "    Format the final output as a valid JSON array of recipe objects. Do not include markdown." +:+ nl
       +:+ "    "))%res.

(** [text_model.generate_content(prompt)] and [response.text]: the call is
    recorded whether or not it raises. *)
Definition generate_content (model : string -> option string) (prompt : string) : M string :=
  fun w =>
    (match model prompt with Some text => Ok text | None => Raise ServiceError end,
     {| mongo := mongo w; oid_counter := oid_counter w;
        generate_calls := generate_calls w ++ [prompt] |}).

(** Lines 304-306 *)
Definition clean_response (text : string) : string :=
  strip (replace "```" EmptyString (replace "```json" EmptyString (strip text))).

(** Lines 303-309: the reply of the model, parsed. *)
Definition ai_candidates (sv : services) (model : string -> option string)
    (prompt : string) : M pyval :=
  (let* text := generate_content model prompt in
   lift (match json_loads sv (clean_response text) with
         | Some v => Ok v
         | None => Raise JSONDecodeError
         end))%M.

Definition failed_to_generate : response :=
  jsonify_status (PDict [("error", PStr "Failed to generate recipes.")]) 500.

(** Lines 301-323: the [try] statement, its [except] clause and the final
    [return].  An exception leaves [final_recipes] as the statements before
    it made it. *)
Definition generation_phase (sv : services) (model : string -> option string)
    (prompt : string) (final_recipes : list pyval) : M response :=
  fun w =>
    let '(final_recipes', outcome, w') :=
      match ai_candidates sv model prompt w with
      | (Ok ai_recipes, w') =>
          let (merged, outcome) := merge_candidates final_recipes ai_recipes in
          (merged, outcome, w')
      | (Raise e, w') => (final_recipes, Raise e, w')
      end in
    match outcome, final_recipes' with
    | Raise _, [] => (Ok failed_to_generate, w')
    | _, _ => (Ok (jsonify (PList final_recipes')), w')
    end.

(** Where lines 253-299 of [generate_recipes] leave the request: answered,
    or ready for the generation call. *)
Inductive prepared : Type :=
| Answered (r : response)
| Ready (model : string -> option string) (db_matches : list doc)
        (final_recipes : list pyval) (prompt : string).

(** [not data or key not in data] *)
Definition lacks (data : pyval) (key : string) : res bool :=
  if truthy data
  then (let? present := py_contains data key in Ok (negb present))%res
  else Ok true.

(** Lines 253-299 *)
Definition prepare_generation (sv : services) (data : pyval) : M prepared :=
  (let* missing := lift (lacks data "ingredients") in
   if missing
   then ret (Answered (jsonify_status (PDict [("error", PStr "Missing ingredients")]) 400))
   else
     let* ingredients := lift (py_get data "ingredients" (PList [])) in
     let* dietary := lift (py_get data "dietary" (PList [])) in
     let* servings := lift (py_get data "servings" (PInt 2)) in
     let* cuisine := lift (py_get data "cuisine" (PStr "any")) in
     match text_model sv with
     | None =>
         ret (Answered (jsonify_status
                (PDict [("error", PStr "Gemini API key not configured on the server.")]) 500))
     | Some model =>
         let* db_matches :=
           find_matching_recipes sv ingredients dietary cuisine ["StoredRecipes"; "recipes"] in
         let* final_recipes := lift (mapM format_db_match db_matches) in
         let* prompt := lift (build_prompt sv ingredients dietary servings cuisine db_matches) in
         ret (Ready model db_matches final_recipes prompt)
     end)%M.

(** [POST /generate_recipes] *)
Definition generate_recipes (sv : services) (data : pyval) : M response :=
  (let* p := prepare_generation sv data in
   match p with
   | Answered r => ret r
   | Ready model _ final_recipes prompt => generation_phase sv model prompt final_recipes
   end)%M.

(** Line 245: [recipe['id'] = str(recipe.pop('_id'))] *)
Definition pop_id (recipe : doc) : res doc :=
  match dict_get recipe "_id" with
  | Some oid => Ok (dict_set (dict_del recipe "_id") "id" (PStr (py_str oid)))
  | None => Raise (KeyError "_id")
  end.

(** [POST /public_recipes] *)
Definition public_recipes (sv : services) (data : pyval) : M response :=
  (let* ingredients := lift (py_get data "ingredients" (PList [])) in
   let* dietary := lift (py_get data "dietary" (PList [])) in
   let* servings := lift (py_get data "servings" (PInt 2)) in
   let* cuisine := lift (py_get data "cuisine" (PStr "any")) in
   let* db_matches := find_matching_recipes sv ingredients dietary cuisine ["StoredRecipes"] in
   let* db_matches := lift (mapM pop_id db_matches) in
   ret (jsonify (PList (map PDict db_matches))))%M.

(** [POST /register] *)
Definition register (sv : services) (data : pyval) : M response :=
  (let* password := lift (py_getitem data "password") in
   let* hashed_password :=
     lift (match password with
           | PStr p => Ok (generate_password_hash sv p)
           | _ => Raise AttributeError
           end) in
   let* username := lift (py_getitem data "username") in
   let* _ := insert_one users [("username", username);
                               ("password", PStr hashed_password);
                               ("favorites", PList [])] in
   ret (jsonify (PDict [("message", PStr "New user created!")])))%M.

(** [POST /favorite] for the caller [current_user_id] *)
Definition add_favorite (sv : services) (current_user_id : string) (recipe_data : pyval)
    : M response :=
  if negb (truthy recipe_data)
  then ret (jsonify_status (PDict [("message", PStr "No recipe data provided")]) 400)
  else
    (let* recipe_id := lift (py_get recipe_data "id" PNone) in
     let* recipe_id :=
       if negb (ObjectId_is_valid recipe_id) then
         let new_recipe :=
           match recipe_data with PDict d => dict_del d "id" | _ => [] end in
         let new_recipe :=
           match dict_get new_recipe "instructions" with
           | Some v => dict_set (dict_del new_recipe "instructions") "steps" v
           | None => new_recipe
           end in
         let* inserted_id := insert_one recipes new_recipe in
         ret (PStr (py_str inserted_id))
       else ret recipe_id in
     let* uid := ObjectId (PStr current_user_id) in
     let* _ := update_one sv users [("_id", uid)] (add_to_set "favorites" recipe_id) in
     ret (jsonify (PDict [("message", PStr "Recipe added to favorites");
                          ("recipe_id", recipe_id)])))%M.

(** [POST /unfavorite] for the caller [current_user_id] *)
Definition remove_favorite (sv : services) (current_user_id : string) (data : pyval)
    : M response :=
  (let* missing := lift (lacks data "recipe_id") in
   if missing
   then ret (jsonify_status (PDict [("message", PStr "Missing recipe_id")]) 400)
   else
     let* recipe_id := lift (py_getitem data "recipe_id") in
     let* uid := ObjectId (PStr current_user_id) in
     let* _ := update_one sv users [("_id", uid)] (pull "favorites" recipe_id) in
     let* other_users := find_one sv users [("favorites", recipe_id)] in
     let* _ :=
       match other_users with
       | Some (_ :: _) => ret tt
       | _ =>
           let* rid := ObjectId recipe_id in
           delete_one sv recipes [("_id", rid)]
       end in
     ret (jsonify (PDict [("message", PStr "Recipe removed from favorites")])))%M.

(** Lines 122-129 of [get_favorites]: one favorite looked up in both
    collections. *)
Definition lookup_favorite (sv : services) (fav_id : pyval) : M (option doc) :=
  (let* oid := ObjectId fav_id in
   let* recipe := find_one sv recipes [("_id", oid)] in
   let* recipe :=
     match recipe with
     | Some (_ :: _) => ret recipe
     | _ =>
         let* oid := ObjectId fav_id in
         find_one sv StoredRecipes [("_id", oid)]
     end in
   match recipe with
   | Some ((_ :: _) as r) =>
       let* oid := lift (py_getitem (PDict r) "_id") in
       ret (Some (dict_set r "_id" (PStr (py_str oid))))
   | _ => ret None
   end)%M.

(** [GET /favorites] for the caller [current_user_id] *)
Definition get_favorites (sv : services) (current_user_id : string) : M response :=
  (let* uid := ObjectId (PStr current_user_id) in
   let* user := find_one sv users [("_id", uid)] in
   let* favorites :=
     lift (match user with
           | Some u => py_iter (dict_get_or u "favorites" (PList []))
           | None => Raise AttributeError
           end) in
   let* found := forM (lookup_favorite sv) favorites in
   let favorite_recipes := omap id found in
   let* formatted_favorites := lift (mapM format_favorite favorite_recipes) in
   ret (jsonify (PList formatted_favorites)))%M.

(** ** The specification's wording of the duplicate filter *)

(** The lowercased title of a candidate that has one. *)
Definition key_of (recipe : pyval) : string :=
  match title_key recipe with
  | Ok t => t
  | Raise _ => EmptyString
  end.





(** ** Sample data *)

Definition titled (title : string) : pyval := PDict [("title", PStr title)].

(** The selected titles and the candidates of the specification's example *)
Definition soup_selected : gset string := {[ lower "Tomato Soup" ]}.

Definition soup_candidates : list pyval :=
  [titled "tomato soup"; titled "Garlic Bread"; titled "garlic bread"].

(** A stored record with no optional field *)
Definition bare_record : doc :=
  [("_id", POid "650000000000000000000001"); ("title", PStr "Toast")].

(** A stored record whose ["steps"] is an empty list *)
Definition empty_steps_record : doc :=
  [("_id", POid "650000000000000000000002"); ("title", PStr "Salad");
   ("steps", PList []); ("instructions", PList [PStr "Toss."])].

(** A stored record with every field *)
Definition full_record : doc :=
  [("_id", POid "650000000000000000000003"); ("title", PStr "Tomato Soup");
   ("description", PStr "A warm soup."); ("cuisine", PStr "Italian");
   ("ingredients", PList [PDict [("name", PStr "tomato"); ("quantity", PStr "4")]]);
   ("steps", PList [PStr "Chop."; PStr "Simmer."]);
   ("instructions", PList [PStr "Blend."]);
   ("cooking_time", PInt 30); ("difficulty", PStr "Easy");
   ("nutrition", PDict [("calories", PInt 120)]); ("servings", PInt 2)].

(** ** The specification's wording of the normalizer *)

(** Instructions as section 4.1 words them: the steps when present, else
    the instructions when present, else the empty sequence. *)
Definition instructions_as_specified (recipe : doc) : pyval :=
  match dict_get recipe "steps" with
  | Some steps => steps
  | None =>
      match dict_get recipe "instructions" with
      | Some instructions => instructions
      | None => PList []
      end
  end.

(** An absent value as the specification renders it: null or ["N/A"]. *)
Definition renders_absence (v : pyval) : Prop := v = PNone \/ v = PStr "N/A".

(** What a normalized record shows for the optional fields of [recipe]
    that are missing. *)
Definition renders_missing_fields (recipe out : doc) : Prop :=
  (dict_get recipe "description" = None -> dict_get out "description" = Some PNone)
  /\ (dict_get recipe "ingredients" = None -> dict_get out "ingredients" = Some PNone)
  /\ (dict_get recipe "steps" = None -> dict_get recipe "instructions" = None ->
      dict_get out "instructions" = Some PNone)
  /\ (dict_get recipe "cooking_time" = None -> dict_get out "cookingTime" = Some PNone)
  /\ (dict_get recipe "difficulty" = None -> dict_get out "difficulty" = Some PNone)
  /\ (dict_get recipe "nutrition" = None ->
      dict_get out "nutritionalInfo" = Some (PStr "Calories: N/A, Protein: N/Ag"))
  /\ (forall n, dict_get recipe "nutrition" = Some (PDict n) ->
      dict_get out "nutritionalInfo"
      = Some (PStr ("Calories: " +:+ py_str (dict_get_or n "calories" (PStr "N/A"))
                    +:+ ", Protein: " +:+ py_str (dict_get_or n "protein" (PStr "N/A"))
                    +:+ "g")))
  /\ (dict_get recipe "servings" = None ->
      dict_get out "servings" = Some (PStr "Serves None")).

(** The nutrition of a record is missing or an object. *)
Definition nutrition_well_formed (recipe : doc) : Prop :=
  match dict_get recipe "nutrition" with
  | None | Some (PDict _) => True
  | Some _ => False
  end.

(** ** The specification's wording of the cuisine filter *)

(** The filter is added exactly when the cuisine is not ["any"]. *)
Definition cuisine_filter_as_specified (cuisine : pyval) : bool :=
  negb (pyval_eqb cuisine (PStr "any")).

(** What line 52 tests: a non-empty cuisine whose lowercase form is not
    ["any"]. *)
Definition cuisine_filtered (cuisine : string) : bool :=
  negb (String.eqb cuisine EmptyString) && negb (String.eqb (lower cuisine) "any").

(** ** Sample collaborators, worlds and requests *)

(** A [json.dumps] for lists of plain strings, enough for the titles of the
    sample records. *)
Definition sample_json_dumps (v : pyval) : option string :=
  match v with
  | PList l =>
      match mapM as_str l with
      | Ok strs => Some ("[" +:+ join_strings ", " (map quoted strs) +:+ "]")
      | Raise _ => None
      end
  | _ => None
  end.

(** A reply whose second candidate has no title *)
Definition untitled_json : string :=
  "[{" +:+ quoted "title" +:+ ": " +:+ quoted "Garlic Bread" +:+ "}, {"
  +:+ quoted "description" +:+ ": " +:+ quoted "nameless" +:+ "}, {"
  +:+ quoted "title" +:+ ": " +:+ quoted "Pesto" +:+ "}]".

Definition untitled_candidates : pyval :=
  PList [titled "Garlic Bread"; PDict [("description", PStr "nameless")]; titled "Pesto"].

(** A [json.loads] that knows the one document above. *)
Definition sample_json_loads (s : string) : option pyval :=
  if String.eqb s untitled_json then Some untitled_candidates else None.

(** The model answers in prose. *)
Definition prose_services : services :=
  {| text_model := Some (fun _ => Some "I could not think of any recipe.");
     json_loads := sample_json_loads;
     json_dumps := sample_json_dumps;
     text_search := fun _ _ => true;
     generate_password_hash := fun p => "pbkdf2:sha256$" +:+ p |}.

(** The model answers with the document above inside a code fence. *)
Definition untitled_services : services :=
  {| text_model := Some (fun _ => Some ("```json" +:+ nl +:+ untitled_json +:+ nl +:+ "```"));
     json_loads := sample_json_loads;
     json_dumps := sample_json_dumps;
     text_search := fun _ _ => true;
     generate_password_hash := fun p => "pbkdf2:sha256$" +:+ p |}.

Definition empty_world : world :=
  {| mongo := {| db_StoredRecipes := []; db_recipes := []; db_users := [] |};
     oid_counter := 0; generate_calls := [] |}.

Definition stocked_world : world :=
  {| mongo := {| db_StoredRecipes := [full_record; bare_record];
                 db_recipes := []; db_users := [] |};
     oid_counter := 0; generate_calls := [] |}.

Definition tomato_request : pyval := PDict [("ingredients", PList [PStr "tomato"])].

(** ** Observations on the favorites ledger *)

(** The account of a caller: the first document of [users] with the
    identifier [uid]. *)
Definition user_of (sv : services) (db : database) (uid : string) : option doc :=
  head (find sv db users [("_id", POid uid)]).

Definition favorites_of (sv : services) (db : database) (uid : string)
    : option (list pyval) :=
  match user_of sv db uid with
  | Some u =>
      match dict_get u "favorites" with
      | Some (PList l) => Some l
      | _ => None
      end
  | None => None
  end.

Definition occurrences (v : pyval) (l : list pyval) : nat :=
  length (List.filter (pyval_eqb v) l).

(** Some account has the identifier among its favorites. *)
Definition referenced (sv : services) (db : database) (recipe_id : string) : bool :=
  existsb (doc_matches sv [("favorites", PStr recipe_id)]) (db_users db).

Definition has_username (name : string) (u : doc) : bool :=
  match dict_get u "username" with
  | Some (PStr n) => String.eqb n name
  | _ => false
  end.

Definition accounts_named (name : string) (accounts : list doc) : nat :=
  length (List.filter (has_username name) accounts).

(** Username uniqueness as the specification states it *)
Definition username_unique (accounts : list doc) : Prop :=
  forall name, accounts_named name accounts <= 1.

Definition alice_request : pyval :=
  PDict [("username", PStr "alice"); ("password", PStr "wonderland")].

(** The world after alice has registered; her identifier is the first one
    drawn, [oid_hex 0]. *)
Definition alice_world : world := (register prose_services alice_request stocked_world).2.

Definition alice_id : string := "000000000000000000000000".

Definition soup_id : string := "650000000000000000000003".

(** An ad-hoc recipe, as the frontend sends it back to be favorited *)
Definition pesto_request : pyval :=
  PDict [("title", PStr "Pesto"); ("instructions", PList [PStr "Blend."])].

(** The world after alice has favorited it; it is stored under the second
    identifier drawn, [oid_hex 1]. *)
Definition pesto_world : world :=
  (add_favorite prose_services alice_id pesto_request alice_world).2.

Definition pesto_id : string := "000000000000000000000001".

(** ** Requests and the worlds they lead to *)

Inductive request : Type :=
| Register (data : pyval)
| GetFavorites (current_user_id : string)
| AddFavorite (current_user_id : string) (recipe_data : pyval)
| RemoveFavorite (current_user_id : string) (data : pyval)
| PublicRecipes (data : pyval)
| GenerateRecipes (data : pyval).

Definition handle (sv : services) (rq : request) : M response :=
  match rq with
  | Register data => register sv data
  | GetFavorites current_user_id => get_favorites sv current_user_id
  | AddFavorite current_user_id recipe_data => add_favorite sv current_user_id recipe_data
  | RemoveFavorite current_user_id data => remove_favorite sv current_user_id data
  | PublicRecipes data => public_recipes sv data
  | GenerateRecipes data => generate_recipes sv data
  end.

(** The worlds the handlers lead to from a database without accounts. *)
Inductive reachable (sv : services) : world -> Prop :=
| reachable_start (w : world) : db_users (mongo w) = [] -> reachable sv w
| reachable_step (w : world) (rq : request) :
    reachable sv w -> reachable sv (handle sv rq w).2.

(** The favorites of an account are a list that holds no identifier
    twice. *)
Definition favorites_distinct (u : doc) : Prop :=
  exists l, dict_get u "favorites" = Some (PList l)
            /\ forall s, occurrences (PStr s) l <= 1.

Definition ledger_ok (w : world) : Prop :=
  Forall favorites_distinct (db_users (mongo w)).

(** A computation that keeps a property of the world, however it ends. *)
Definition keeps (I : world -> Prop) {A} (m : M A) : Prop :=
  forall w, I w -> I (m w).2.

(** ** The remaining handlers and helpers *)

(** What [login] calls: werkzeug's [check_password_hash] on a stored hash
    and a password, and [create_access_token] on an identity. *)
Record auth_services : Type := {
  check_password_hash : string -> string -> bool;
  create_access_token : string -> string
}.

Definition could_not_verify : response :=
  jsonify_status (PDict [("message", PStr "Could not verify")]) 401.

(** [check_password_hash(pwhash, password)]: both arguments are strings. *)
Definition py_check_password_hash (au : auth_services) (pwhash password : pyval)
    : res bool :=
  match pwhash, password with
  | PStr h, PStr p => Ok (check_password_hash au h p)
  | _, _ => Raise AttributeError
  end.

(** [POST /login] *)
Definition login (sv : services) (au : auth_services) (data : pyval) : M response :=
  (let* username := lift (py_getitem data "username") in
   let* user := find_one sv users [("username", username)] in
   match user with
   | Some ((_ :: _) as u) =>
       let* pwhash := lift (py_getitem (PDict u) "password") in
       let* password := lift (py_getitem data "password") in
       let* verified := lift (py_check_password_hash au pwhash password) in
       if verified then
         let* oid := lift (py_getitem (PDict u) "_id") in
         ret (jsonify (PDict [("access_token",
                               PStr (create_access_token au (py_str oid)))]))
       else ret could_not_verify
   | _ => ret could_not_verify
   end)%M.

(** [s.split(sep)] for a separator of one character *)
Fixpoint split_on (sep : ascii) (s : string) : list string :=
  match s with
  | EmptyString => [EmptyString]
  | String c s' =>
      if Ascii.eqb c sep then EmptyString :: split_on sep s'
      else
        match split_on sep s' with
        | [] => [String c EmptyString]
        | piece :: pieces => String c piece :: pieces
        end
  end.

(** Line 224: the comma-separated answer of the vision model as a list. *)
Definition parse_ingredients (recognized_text : string) : list string :=
  map strip
    (List.filter (fun ing => negb (String.eqb (strip ing) EmptyString))
       (split_on ","%char recognized_text)).

(** What [recognize_ingredients] calls: [decode_image] is
    [base64.b64decode] followed by [Image.open], [None] when either raises;
    [vision_model] is [None] when [GOOGLE_API_KEY] is unset and maps an
    image to the text of the reply, [None] when the call raises. *)
Record vision_services : Type := {
  image : Type;
  decode_image : string -> option image;
  vision_model : option (image -> option string)
}.

Definition failed_to_process : response :=
  jsonify_status (PDict [("error", PStr "Failed to process the image.")]) 500.

(** Lines 208-227, the body of the [try] statement: [None] when a statement
    raises, whatever the exception, since line 229 catches them all. *)
Definition recognize (vs : vision_services) (model : image vs -> option string)
    (data : pyval) : option response :=
  match py_getitem data "image" with
  | Ok (PStr uri) =>
      match split_on ","%char uri with
      | _ :: base64_image_data :: _ =>
          match decode_image vs base64_image_data with
          | Some img =>
              match model img with
              | Some text =>
                  let recognized_text := lower (strip text) in
                  if String.eqb recognized_text EmptyString
                  then Some (jsonify (PList []))
                  else Some (jsonify (PList (map PStr (parse_ingredients recognized_text))))
              | None => None
              end
          | None => None
          end
      | _ => None
      end
  | _ => None
  end.

(** [POST /recognize_ingredients] *)
Definition recognize_ingredients (vs : vision_services) (data : pyval) : res response :=
  match vision_model vs with
  | None =>
      Ok (jsonify_status
            (PDict [("error", PStr "Gemini API key not configured on the server.")]) 500)
  | Some model =>
      (let? missing := lacks data "image" in
       if missing
       then Ok (jsonify_status (PDict [("error", PStr "No image data provided.")]) 400)
       else Ok (match recognize vs model data with
                | Some r => r
                | None => failed_to_process
                end))%res
  end.

(** What [search_web] calls.  [ddgs_text q] is [list(ddgs.text(q,
    max_results=5))], [None] when it raises; the two Google settings are the
    environment variables; [google_cse key cx q] is the answer of
    [build(...).cse().list(q=q, cx=cx, num=5).execute()], [None] when it
    raises. *)
Record search_services : Type := {
  ddgs_text : string -> option (list pyval);
  GOOGLE_CSE_API_KEY : option string;
  GOOGLE_CSE_ID : option string;
  google_cse : string -> string -> string -> option pyval
}.

(** Lines 69-72: what the DuckDuckGo block adds to [results]. *)
Definition ddgs_bodies (ss : search_services) (query : string) : list pyval :=
  match ddgs_text ss query with
  | Some ((_ :: _) as ddgs_results) =>
      match mapM (fun r => py_get r "body" (PStr EmptyString)) ddgs_results with
      | Ok bodies => bodies
      | Raise _ => []
      end
  | _ => []
  end.

(** Line 86: one Google item as a line of text. *)
Definition google_line (item : pyval) : res pyval :=
  (let? title := py_get item "title" (PStr EmptyString) in
   let? snippet := py_get item "snippet" (PStr EmptyString) in
   Ok (PStr (py_str title +:+ ": " +:+ py_str snippet)))%res.

(** Lines 85-86: the loop appends line by line, so an item that raises
    leaves the lines before it in [results]. *)
Fixpoint google_lines (results : list pyval) (items : list pyval) : list pyval :=
  match items with
  | [] => results
  | item :: rest =>
      match google_line item with
      | Ok line => google_lines (results ++ [line]) rest
      | Raise _ => results
      end
  end.

(** Lines 81-87: what the Google block makes of [results]. *)
Definition google_block (ss : search_services) (key cx query : string)
    (results : list pyval) : list pyval :=
  match google_cse ss key cx query with
  | Some answer =>
      match py_contains answer "items" with
      | Ok true =>
          match py_getitem answer "items" with
          | Ok google_results =>
              match py_iter google_results with
              | Ok items => google_lines results items
              | Raise _ => results
              end
          | Raise _ => results
          end
      | _ => results
      end
  | None => results
  end.

(** [search_web(query)] *)
Definition search_web (ss : search_services) (query : string) : list pyval :=
  let results := ddgs_bodies ss query in
  match GOOGLE_CSE_API_KEY ss, GOOGLE_CSE_ID ss with
  | Some key, Some cx =>
      if negb (String.eqb key EmptyString) && negb (String.eqb cx EmptyString)
      then google_block ss key cx query results
      else results
  | _, _ => results
  end.

(** The record a favorite resolves to: the first match in [recipes], else
    the first match in [StoredRecipes]. *)
Definition resolve_favorite (sv : services) (db : database) (oid : string) : option doc :=
  match head (find sv db recipes [("_id", POid oid)]) with
  | Some ((_ :: _) as r) => Some r
  | _ =>
      match head (find sv db StoredRecipes [("_id", POid oid)]) with
      | Some ((_ :: _) as r) => Some r
      | _ => None
      end
  end.

(** Line 128: the identifier of a resolved record as text. *)
Definition with_text_id (r : doc) : doc :=
  dict_set r "_id" (PStr (py_str (dict_get_or r "_id" PNone))).

(** Lines 160-163 of [add_favorite]: the record stored for an ad-hoc
    recipe. *)
Definition adhoc_record (recipe_data : doc) : doc :=
  let new_recipe := dict_del recipe_data "id" in
  match dict_get new_recipe "instructions" with
  | Some v => dict_set (dict_del new_recipe "instructions") "steps" v
  | None => new_recipe
  end.

(** A computation that leaves the database as it is, however it ends. *)
Definition reads_only {A} (m : M A) : Prop :=
  forall w, mongo (m w).2 = mongo w.

(** Every character of a string satisfies [p]. *)
Fixpoint all_chars (p : ascii -> bool) (s : string) : bool :=
  match s with
  | EmptyString => true
  | String c s' => p c && all_chars p s'
  end.

(** ** More sample data *)



(** No API key: there is no model. *)
Definition keyless_services : services :=
  {| text_model := None;
     json_loads := sample_json_loads;
     json_dumps := sample_json_dumps;
     text_search := fun _ _ => true;
     generate_password_hash := fun p => "pbkdf2:sha256$" +:+ p |}.

(** A password verifies against the hash the sample services make of it. *)
Definition sample_auth : auth_services :=
  {| check_password_hash := fun h p => String.eqb h ("pbkdf2:sha256$" +:+ p);
     create_access_token := fun identity => "token-for-" +:+ identity |}.

(** A stored record whose nutrition is null *)
Definition null_nutrition_record : doc :=
  [("_id", POid "650000000000000000000004"); ("title", PStr "Broth");
   ("nutrition", PNone)].

Definition broth_world : world :=
  {| mongo := {| db_StoredRecipes := [full_record; null_nutrition_record];
                 db_recipes := []; db_users := [] |};
     oid_counter := 0; generate_calls := [] |}.

(** The identifier a favorite spells, as [ObjectId] reads a value that is
    not [None]. *)
Definition favorite_oid (v : pyval) : res string :=
  match v with
  | PStr s =>
      match parse_oid s with
      | Some oid => Ok oid
      | None => Raise InvalidId
      end
  | POid h => Ok h
  | _ => Raise TypeError
  end.

(** A hexadecimal digit as [str(ObjectId)] prints it *)
Definition is_lower_hex (c : ascii) : bool :=
  negb (is_hex_space c) && is_hex c && Ascii.eqb (lower_ascii c) c.

(** A recipe sent with an ["_id"] of the client's choosing *)
Definition named_request : doc := [("_id", PStr "my-soup"); ("title", PStr "Soup")].

(** The world after alice has favorited it *)
Definition named_world : world :=
  (add_favorite prose_services alice_id (PDict named_request) alice_world).2.

(** A vision model that sees tomatoes and onions in every image; images are
    kept as their base64 text. *)
Definition sample_vision : vision_services :=
  {| image := string;
     decode_image := fun b64 => if String.eqb b64 EmptyString then None else Some b64;
     vision_model := Some (fun _ => Some " Tomatoes, ONIONS ,") |}.

(** A search setup: DuckDuckGo knows one page, Google answers with two
    items of which the second is no object. *)
Definition sample_search : search_services :=
  {| ddgs_text := fun _ => Some [PDict [("title", PStr "Soup"); ("body", PStr "A soup page.")]];
     GOOGLE_CSE_API_KEY := Some "key";
     GOOGLE_CSE_ID := Some "cx";
     google_cse := fun _ _ _ =>
       Some (PDict [("items", PList [PDict [("title", PStr "Bread");
                                            ("snippet", PStr "A bread page.")];
                                     PStr "broken";
                                     PDict [("title", PStr "Late")]])]) |}.

(** * Properties *)

(** ** Results and dictionaries *)

Lemma mapM_length {A B} (f : A -> res B) (l : list A) (ys : list B) :
  mapM f l = Ok ys -> length ys = length l.
Proof.
  revert ys. induction l as [|x l IH]; intros ys H; simpl in H.
  - by inversion H.
  - destruct (f x) as [y|]; [|discriminate].
    destruct (mapM f l) as [ys'|]; [|discriminate].
    inversion H; subst. simpl. f_equal. by apply IH.
Qed.

Lemma mapM_cons_inv {A B} (f : A -> res B) (x : A) (l : list A) (ys : list B) :
  mapM f (x :: l) = Ok ys ->
  exists y ys', ys = y :: ys' /\ f x = Ok y /\ mapM f l = Ok ys'.
Proof.
  simpl. destruct (f x) as [y|]; [|discriminate].
  destruct (mapM f l) as [ys'|]; [|discriminate].
  intros H; inversion H; subst. by exists y, ys'.
Qed.



(** ** The duplicate filter *)







(** The example of the specification: with "Tomato Soup" selected, of the
    candidates "tomato soup", "Garlic Bread", "garlic bread" only
    "Garlic Bread" is appended. *)
Example duplicate_filter_soup :
  dedup_loop soup_selected [] soup_candidates
  = ([titled "Garlic Bread"], {[ "garlic bread" ]} ∪ soup_selected, Ok tt).
Proof. vm_compute. reflexivity. Qed.



(** ** The normalizer *)

Lemma steps_or_instructions_cases (recipe : doc) :
  steps_or_instructions recipe =
    match dict_get recipe "steps" with
    | Some steps =>
        if truthy steps then steps else dict_get_or recipe "instructions" PNone
    | None => dict_get_or recipe "instructions" PNone
    end.
Proof.
  unfold steps_or_instructions, py_or, dict_get_or.
  by destruct (dict_get recipe "steps").
Qed.

Lemma format_db_match_fields (recipe : doc) (out : pyval) :
  format_db_match recipe = Ok out ->
  exists oid title nutrition,
    dict_get recipe "_id" = Some oid /\ dict_get recipe "title" = Some title
    /\ nutritional_info recipe = Ok nutrition
    /\ out = PDict [("id", PStr (py_str oid));
                    ("title", title);
                    ("description", dict_get_or recipe "description" PNone);
                    ("ingredients", dict_get_or recipe "ingredients" PNone);
                    ("instructions", steps_or_instructions recipe);
                    ("cookingTime", dict_get_or recipe "cooking_time" PNone);
                    ("difficulty", dict_get_or recipe "difficulty" PNone);
                    ("nutritionalInfo", nutrition);
                    ("servings", serves recipe)].
Proof.
  unfold format_db_match, rbind, py_getitem.
  destruct (dict_get recipe "_id") as [oid|]; [|discriminate].
  destruct (dict_get recipe "title") as [title|]; [|discriminate].
  destruct (nutritional_info recipe) as [nutrition|]; [|discriminate].
  intros H; inversion H. by exists oid, title, nutrition.
Qed.

Lemma format_favorite_fields (recipe : doc) (out : pyval) :
  format_favorite recipe = Ok out ->
  exists oid nutrition,
    dict_get recipe "_id" = Some oid
    /\ nutritional_info recipe = Ok nutrition
    /\ out = PDict [("id", oid);
                    ("title", dict_get_or recipe "title" PNone);
                    ("description", dict_get_or recipe "description" PNone);
                    ("ingredients", dict_get_or recipe "ingredients" PNone);
                    ("instructions", steps_or_instructions recipe);
                    ("cookingTime", dict_get_or recipe "cooking_time" PNone);
                    ("difficulty", dict_get_or recipe "difficulty" PNone);
                    ("nutritionalInfo", nutrition);
                    ("servings", serves recipe)].
Proof.
  unfold format_favorite, rbind, py_getitem.
  destruct (dict_get recipe "_id") as [oid|]; [|discriminate].
  destruct (nutritional_info recipe) as [nutrition|]; [|discriminate].
  intros H; inversion H. by exists oid, nutrition.
Qed.

(** The record with neither field: the code yields [None], the claim the
    empty sequence. *)
Lemma instructions_absent_is_none :
  format_db_match bare_record
  = Ok (PDict [("id", PStr "650000000000000000000001"); ("title", PStr "Toast");
               ("description", PNone); ("ingredients", PNone);
               ("instructions", PNone); ("cookingTime", PNone);
               ("difficulty", PNone);
               ("nutritionalInfo", PStr "Calories: N/A, Protein: N/Ag");
               ("servings", PStr "Serves None")])
  /\ steps_or_instructions bare_record = PNone
  /\ instructions_as_specified bare_record = PList []
  /\ steps_or_instructions bare_record <> instructions_as_specified bare_record.
Proof. repeat split; try reflexivity. discriminate. Qed.

(** A record whose ["steps"] is present and empty: the code yields the
    ["instructions"] value, the claim the empty ["steps"]. *)
Example empty_steps_fall_through :
  steps_or_instructions empty_steps_record = PList [PStr "Toss."]
  /\ instructions_as_specified empty_steps_record = PList [].
Proof. split; reflexivity. Qed.

(** C3 (amended): the normalized instructions are the record's ["steps"]
    value when it is present and truthy, whatever ["instructions"] holds;
    otherwise the ["instructions"] value when that is present, otherwise
    [None]; and this is the ["instructions"] field of both normalizers. *)
Theorem instructions_prefer_truthy_steps (recipe : doc) :
  (forall steps, dict_get recipe "steps" = Some steps -> truthy steps = true ->
     steps_or_instructions recipe = steps)
  /\ (forall instructions,
        (dict_get recipe "steps" = None
         \/ exists steps, dict_get recipe "steps" = Some steps /\ truthy steps = false) ->
        dict_get recipe "instructions" = Some instructions ->
        steps_or_instructions recipe = instructions)
  /\ ((dict_get recipe "steps" = None
       \/ exists steps, dict_get recipe "steps" = Some steps /\ truthy steps = false) ->
      dict_get recipe "instructions" = None ->
      steps_or_instructions recipe = PNone)
  /\ (forall out, format_db_match recipe = Ok out ->
        py_getitem out "instructions" = Ok (steps_or_instructions recipe))
  /\ (forall out, format_favorite recipe = Ok out ->
        py_getitem out "instructions" = Ok (steps_or_instructions recipe)).
Proof.
  rewrite steps_or_instructions_cases. unfold dict_get_or. repeat split.
  - intros steps -> Ht. by rewrite Ht.
  - intros instructions [->|(steps & -> & Ht)] ->; [done|by rewrite Ht].
  - intros [->|(steps & -> & Ht)] ->; [done|by rewrite Ht].
  - intros out H. apply format_db_match_fields in H as (? & ? & ? & _ & _ & _ & ->).
    simpl. by rewrite steps_or_instructions_cases.
  - intros out H. apply format_favorite_fields in H as (? & ? & _ & _ & ->).
    simpl. by rewrite steps_or_instructions_cases.
Qed.

Lemma instructions_prefer_truthy_steps_witness :
  steps_or_instructions full_record = PList [PStr "Chop."; PStr "Simmer."]
  /\ steps_or_instructions empty_steps_record = PList [PStr "Toss."]
  /\ steps_or_instructions bare_record = PNone.
Proof.
  split; [|split].
  - apply (proj1 (instructions_prefer_truthy_steps full_record)); reflexivity.
  - apply (proj1 (proj2 (instructions_prefer_truthy_steps empty_steps_record))).
    + right. exists (PList []). split; reflexivity.
    + reflexivity.
  - apply (proj1 (proj2 (proj2 (instructions_prefer_truthy_steps bare_record)))).
    + left. reflexivity.
    + reflexivity.
Defined.

Lemma nutritional_info_well_formed (recipe : doc) :
  nutrition_well_formed recipe ->
  exists text,
    nutritional_info recipe = Ok (PStr text)
    /\ (dict_get recipe "nutrition" = None -> text = "Calories: N/A, Protein: N/Ag")
    /\ (forall n, dict_get recipe "nutrition" = Some (PDict n) ->
        text = "Calories: " +:+ py_str (dict_get_or n "calories" (PStr "N/A"))
               +:+ ", Protein: " +:+ py_str (dict_get_or n "protein" (PStr "N/A"))
               +:+ "g").
Proof.
  unfold nutrition_well_formed, nutritional_info.
  unfold dict_get_or at 1 2.
  destruct (dict_get recipe "nutrition") as [[| | | | |n|]|]; try done; intros _.
  - eexists. split; [reflexivity|]. split; [discriminate|].
    intros n' H. by inversion H.
  - eexists. split; [reflexivity|]. split; [done|discriminate].
Qed.

Lemma renders_missing_fields_intro (recipe : doc) (oid title : pyval) (text : string) :
  (dict_get recipe "nutrition" = None -> text = "Calories: N/A, Protein: N/Ag") ->
  (forall n, dict_get recipe "nutrition" = Some (PDict n) ->
     text = "Calories: " +:+ py_str (dict_get_or n "calories" (PStr "N/A"))
            +:+ ", Protein: " +:+ py_str (dict_get_or n "protein" (PStr "N/A"))
            +:+ "g") ->
  renders_missing_fields recipe
    [("id", oid);
     ("title", title);
     ("description", dict_get_or recipe "description" PNone);
     ("ingredients", dict_get_or recipe "ingredients" PNone);
     ("instructions", steps_or_instructions recipe);
     ("cookingTime", dict_get_or recipe "cooking_time" PNone);
     ("difficulty", dict_get_or recipe "difficulty" PNone);
     ("nutritionalInfo", PStr text);
     ("servings", serves recipe)].
Proof.
  intros Hnone Hsome. unfold renders_missing_fields, serves, steps_or_instructions,
    dict_get_or. simpl. repeat split.
  - by intros ->.
  - by intros ->.
  - by intros -> ->.
  - by intros ->.
  - by intros ->.
  - intros H. by rewrite (Hnone H).
  - intros n H. by rewrite (Hsome n H).
  - by intros ->.
Qed.

(** The record without ["servings"]: the normalized field is the text
    "Serves None", which is neither null nor "N/A". *)
Lemma absent_servings_is_serves_none :
  dict_get bare_record "servings" = None
  /\ exists out,
       format_db_match bare_record = Ok (PDict out)
       /\ dict_get out "servings" = Some (PStr "Serves None")
       /\ ~ renders_absence (PStr "Serves None").
Proof.
  split; [reflexivity|]. eexists. split; [reflexivity|]. split; [reflexivity|].
  intros [H|H]; discriminate.
Qed.

(** A ["nutrition"] field that is present and null is not a missing field:
    line 281 raises on it. *)
Example null_nutrition_raises :
  format_db_match (bare_record ++ [("nutrition", PNone)]) = Raise AttributeError.
Proof. reflexivity. Qed.

(** C4 (amended): on a record that has its identifier and title and whose
    nutrition is missing or an object, neither normalizer raises; a missing
    description, ingredients, instructions, cooking time or difficulty is
    null, a missing nutrition component is "N/A" inside the summary, and a
    missing servings value gives the text "Serves None". *)
Theorem normalization_total_on_missing_fields (recipe : doc) (oid : pyval) :
  dict_get recipe "_id" = Some oid ->
  nutrition_well_formed recipe ->
  (forall title, dict_get recipe "title" = Some title ->
     exists out, format_db_match recipe = Ok (PDict out)
                 /\ renders_missing_fields recipe out)
  /\ exists out, format_favorite recipe = Ok (PDict out)
                 /\ renders_missing_fields recipe out.
Proof.
  intros Hid Hn.
  destruct (nutritional_info_well_formed recipe Hn) as (text & Htext & Hnone & Hsome).
  split.
  - intros title Ht. eexists. split.
    + unfold format_db_match, py_getitem. rewrite Hid, Ht, Htext. reflexivity.
    + by apply renders_missing_fields_intro.
  - eexists. split.
    + unfold format_favorite, py_getitem. rewrite Hid, Htext. reflexivity.
    + by apply renders_missing_fields_intro.
Qed.

Lemma normalization_total_on_missing_fields_witness :
  exists out, format_favorite bare_record = Ok (PDict out)
              /\ renders_missing_fields bare_record out.
Proof.
  apply (normalization_total_on_missing_fields bare_record
           (POid "650000000000000000000001")).
  - reflexivity.
  - exact I.
Defined.

(** ** Fetching the stored matches *)

Lemma mapM_as_str (l : list string) : mapM as_str (PStr <$> l) = Ok l.
Proof.
  induction l as [|s l IH]; [done|].
  rewrite fmap_cons. cbn [mapM as_str]. by rewrite IH.
Qed.

Lemma search_filter_strings (ingredients : list string) (cuisine : string) :
  search_filter (PList (PStr <$> ingredients)) (PStr cuisine)
  = Ok (("$text", PDict [("$search", PStr (join_strings " " ingredients))])
        :: if cuisine_filtered cuisine then [("cuisine", PStr cuisine)] else []).
Proof.
  unfold search_filter, py_join, py_iter, cuisine_filtered, rbind.
  rewrite mapM_as_str. simpl.
  destruct (String.eqb cuisine EmptyString); simpl; [done|].
  by destruct (String.eqb (lower cuisine) "any").
Qed.

(** A cuisine that is not ["any"] and yet adds no filter: ["ANY"]. *)
Lemma uppercase_any_is_not_filtered :
  cuisine_filter_as_specified (PStr "ANY") = true
  /\ search_filter (PList [PStr "egg"; PStr "flour"]) (PStr "ANY")
     = Ok [("$text", PDict [("$search", PStr "egg flour")])]
  /\ dict_has [("$text", PDict [("$search", PStr "egg flour")])] "cuisine" = false.
Proof. repeat split. Qed.

(** The empty cuisine adds no filter either. *)
Example empty_cuisine_is_not_filtered :
  cuisine_filter_as_specified (PStr EmptyString) = true
  /\ search_filter (PList [PStr "egg"]) (PStr EmptyString)
     = Ok [("$text", PDict [("$search", PStr "egg")])].
Proof. repeat split. Qed.

(** C6 (amended): the stored matches are the first three documents of
    [StoredRecipes] that satisfy the query, followed by the first three of
    [recipes], each only when the collection is asked for; the query is a
    text search for the space-joined ingredients, with an equality
    condition on the cuisine exactly when the cuisine is non-empty and its
    lowercase form is not ["any"]. *)
Theorem find_matching_recipes_fetch (sv : services) (ingredients : list string)
    (dietary_prefs : pyval) (cuisine : string) (collections : list string) (w : world) :
  let search_query := join_strings " " ingredients in
  let query :=
    ("$text", PDict [("$search", PStr search_query)])
    :: if cuisine_filtered cuisine then [("cuisine", PStr cuisine)] else [] in
  find_matching_recipes sv (PList (PStr <$> ingredients)) dietary_prefs
    (PStr cuisine) collections w
  = (Ok ((if in_collections "StoredRecipes" collections
          then take 3 (List.filter (doc_matches sv query) (db_StoredRecipes (mongo w)))
          else [])
         ++ (if in_collections "recipes" collections
             then take 3 (List.filter (doc_matches sv query) (db_recipes (mongo w)))
             else [])), w)
  /\ (dict_has query "cuisine" = cuisine_filtered cuisine)
  /\ forall d,
       doc_matches sv query d
       = text_search sv search_query d
         && (if cuisine_filtered cuisine
             then match dict_get d "cuisine" with
                  | Some v => field_matches v (PStr cuisine)
                  | None => false
                  end
             else true).
Proof.
  intros search_query query. split; [|split].
  - unfold find_matching_recipes, bind, lift, get_db, ret.
    rewrite search_filter_strings. fold search_query. fold query.
    unfold fetch_matches, find_limit, find. simpl.
    destruct (in_collections "StoredRecipes" collections),
      (in_collections "recipes" collections); simpl; try done.
    by rewrite app_nil_r.
  - unfold query. by destruct (cuisine_filtered cuisine).
  - intros d. unfold query, doc_matches.
    destruct (cuisine_filtered cuisine); simpl.
    + destruct (dict_get d "cuisine"); simpl; [by rewrite andb_true_r|done].
    + done.
Qed.

Lemma find_matching_recipes_run (sv : services) (user_ingredients dietary_prefs cuisine : pyval)
    (collections : list string) (w : world) :
  find_matching_recipes sv user_ingredients dietary_prefs cuisine collections w
  = (match search_filter user_ingredients cuisine with
     | Ok query => Ok (fetch_matches sv (mongo w) query collections)
     | Raise e => Raise e
     end, w).
Proof.
  unfold find_matching_recipes, bind, lift, get_db, ret.
  by destruct (search_filter user_ingredients cuisine).
Qed.

(** ** The public search *)


(** The public search on a stocked database: the two stored records, and
    no call to the model. *)
Example public_recipes_stocked :
  public_recipes prose_services tomato_request stocked_world
  = (Ok (jsonify (PList [PDict (dict_set (dict_del full_record "_id") "id"
                                  (PStr "650000000000000000000003"));
                         PDict [("title", PStr "Toast");
                                ("id", PStr "650000000000000000000001")]])),
     stocked_world).
Proof. reflexivity. Qed.

(** ** The generation phase *)

Lemma prepare_generation_ready (sv : services) (data : pyval) (w w1 : world)
    (model : string -> option string) (db_matches : list doc)
    (final_recipes : list pyval) (prompt : string) :
  prepare_generation sv data w = (Ok (Ready model db_matches final_recipes prompt), w1) ->
  w1 = w
  /\ text_model sv = Some model
  /\ mapM format_db_match db_matches = Ok final_recipes
  /\ exists query,
       db_matches = fetch_matches sv (mongo w) query ["StoredRecipes"; "recipes"].
Proof.
  unfold prepare_generation, bind, lift, ret.
  destruct (lacks data "ingredients") as [[|]|]; try discriminate.
  destruct (py_get data "ingredients" (PList [])) as [ingredients|]; [|discriminate].
  destruct (py_get data "dietary" (PList [])) as [dietary|]; [|discriminate].
  destruct (py_get data "servings" (PInt 2)) as [servings|]; [|discriminate].
  destruct (py_get data "cuisine" (PStr "any")) as [cuisine|]; [|discriminate].
  destruct (text_model sv) as [model'|]; [|discriminate].
  rewrite find_matching_recipes_run.
  destruct (search_filter ingredients cuisine) as [query|]; [|discriminate].
  destruct (mapM format_db_match _) as [final'|] eqn:Hfinal; [|discriminate].
  destruct (build_prompt _ _ _ _ _ _) as [prompt'|]; [|discriminate].
  intros H; inversion H; subst. repeat split; try done. by exists query.
Qed.

Lemma generate_recipes_ready (sv : services) (data : pyval) (w w1 : world)
    (model : string -> option string) (db_matches : list doc)
    (final_recipes : list pyval) (prompt : string) :
  prepare_generation sv data w = (Ok (Ready model db_matches final_recipes prompt), w1) ->
  generate_recipes sv data w = generation_phase sv model prompt final_recipes w1.
Proof. intros H. unfold generate_recipes, bind. by rewrite H. Qed.

Lemma generation_phase_unparsed (sv : services) (model : string -> option string)
    (prompt text : string) (final_recipes : list pyval) (w : world) :
  model prompt = Some text ->
  json_loads sv (clean_response text) = None ->
  (generation_phase sv model prompt final_recipes w).1
  = Ok (match final_recipes with
        | [] => failed_to_generate
        | _ => jsonify (PList final_recipes)
        end).
Proof.
  intros Htext Hloads.
  unfold generation_phase, ai_candidates, generate_content, bind, lift.
  rewrite Htext, Hloads. by destruct final_recipes.
Qed.



(** C1: once the request has reached the generation call, a reply that
    does not parse as JSON makes [generate_recipes] answer with exactly the
    normalized stored matches when there is at least one, and with the
    status 500 and an error body when there is none. *)
Theorem generate_recipes_degrades_on_parse_failure
    (sv : services) (data : pyval) (w w1 : world)
    (model : string -> option string) (db_matches : list doc)
    (final_recipes : list pyval) (prompt text : string) :
  prepare_generation sv data w = (Ok (Ready model db_matches final_recipes prompt), w1) ->
  model prompt = Some text ->
  json_loads sv (clean_response text) = None ->
  mapM format_db_match db_matches = Ok final_recipes
  /\ (db_matches <> [] ->
      (generate_recipes sv data w).1 = Ok (jsonify (PList final_recipes)))
  /\ (db_matches = [] ->
      (generate_recipes sv data w).1 = Ok failed_to_generate)
  /\ status failed_to_generate = 500.
Proof.
  intros Hready Htext Hloads.
  rewrite (generate_recipes_ready _ _ _ _ _ _ _ _ Hready).
  rewrite (generation_phase_unparsed _ _ _ _ _ _ Htext Hloads).
  apply prepare_generation_ready in Hready as (_ & _ & Hfinal & _).
  split; [done|]. split; [|split; [|done]].
  - intros Hne. destruct final_recipes; [|done].
    apply mapM_length in Hfinal. by destruct db_matches.
  - intros ->. simpl in Hfinal. by inversion Hfinal.
Qed.

Lemma generate_recipes_degrades_on_parse_failure_witness :
  (exists shown,
     mapM format_db_match [full_record; bare_record] = Ok shown
     /\ (generate_recipes prose_services tomato_request stocked_world).1
        = Ok (jsonify (PList shown)))
  /\ (generate_recipes prose_services tomato_request empty_world).1
     = Ok failed_to_generate.
Proof.
  split.
  - edestruct (generate_recipes_degrades_on_parse_failure prose_services
                 tomato_request stocked_world) as (Hshown & Hsome & _);
      [reflexivity | reflexivity | reflexivity |].
    eexists. split; [exact Hshown|]. apply Hsome. discriminate.
  - edestruct (generate_recipes_degrades_on_parse_failure prose_services
                 tomato_request empty_world) as (_ & _ & Hnone & _);
      [reflexivity | reflexivity | reflexivity |].
    apply Hnone. reflexivity.
Defined.

(** The degraded answer on the stocked database, in full: the prompt was
    sent once and the two stored records come back normalized. *)
Example generate_recipes_prose_reply :
  (generate_recipes prose_services tomato_request stocked_world).1
  = Ok (jsonify (PList [
      PDict [("id", PStr "650000000000000000000003");
             ("title", PStr "Tomato Soup");
             ("description", PStr "A warm soup.");
             ("ingredients", PList [PDict [("name", PStr "tomato"); ("quantity", PStr "4")]]);
             ("instructions", PList [PStr "Chop."; PStr "Simmer."]);
             ("cookingTime", PInt 30);
             ("difficulty", PStr "Easy");
             ("nutritionalInfo", PStr "Calories: 120, Protein: N/Ag");
             ("servings", PStr "Serves 2")];
      PDict [("id", PStr "650000000000000000000001");
             ("title", PStr "Toast");
             ("description", PNone);
             ("ingredients", PNone);
             ("instructions", PNone);
             ("cookingTime", PNone);
             ("difficulty", PNone);
             ("nutritionalInfo", PStr "Calories: N/A, Protein: N/Ag");
             ("servings", PStr "Serves None")]]))
  /\ length (generate_calls (generate_recipes prose_services tomato_request stocked_world).2) = 1.
Proof. split; vm_compute; reflexivity. Qed.



(** The same request when no record is stored: the first candidate is kept
    and the untitled one ends the list. *)
Example generate_recipes_untitled_reply :
  (generate_recipes untitled_services tomato_request empty_world).1
  = Ok (jsonify (PList [titled "Garlic Bread"])).
Proof. vm_compute. reflexivity. Qed.

(** ** The favorites ledger *)

Lemma dict_get_set_eq (d : doc) (k : string) (v : pyval) :
  dict_get (dict_set d k v) k = Some v.
Proof.
  induction d as [|[k' v'] d IH]; simpl.
  - by rewrite String.eqb_refl.
  - destruct (String.eqb k' k) eqn:Hk; simpl.
    + by rewrite String.eqb_refl.
    + by rewrite Hk.
Qed.

Lemma dict_get_set_ne (d : doc) (k k' : string) (v : pyval) :
  k <> k' -> dict_get (dict_set d k v) k' = dict_get d k'.
Proof.
  intros Hne. induction d as [|[k0 v0] d IH]; simpl.
  - by rewrite (proj2 (String.eqb_neq k k')).
  - destruct (String.eqb k0 k) eqn:Hk; simpl.
    + apply String.eqb_eq in Hk as ->.
      by rewrite (proj2 (String.eqb_neq k k')).
    + by rewrite IH.
Qed.

Lemma pyval_eqb_str (s : string) (v : pyval) :
  pyval_eqb (PStr s) v = true <-> v = PStr s.
Proof.
  destruct v; simpl; try (split; [discriminate|discriminate]).
  rewrite String.eqb_eq. split; [by intros ->|by intros [= ->]].
Qed.

Lemma pyval_eqb_oid (h : string) (v : pyval) :
  pyval_eqb v (POid h) = true <-> v = POid h.
Proof.
  destruct v; simpl; try (split; [discriminate|discriminate]).
  rewrite String.eqb_eq. split; [by intros ->|by intros [= ->]].
Qed.

(** Whether a document has a given identifier depends on its ["_id"]
    alone. *)
Lemma matches_id (sv : services) (i : pyval) (d : doc) :
  doc_matches sv [("_id", i)] d
  = match dict_get d "_id" with
    | Some dv => field_matches dv i
    | None => pyval_eqb i PNone
    end.
Proof. unfold doc_matches. simpl. by rewrite andb_true_r. Qed.

Lemma matches_favorite (sv : services) (v : pyval) (d : doc) :
  doc_matches sv [("favorites", v)] d
  = match dict_get d "favorites" with
    | Some dv => field_matches dv v
    | None => pyval_eqb v PNone
    end.
Proof. unfold doc_matches. simpl. by rewrite andb_true_r. Qed.

Lemma update_first_head (p : doc -> bool) (f : doc -> res doc) (l : list doc)
    (u u' : doc) :
  head (List.filter p l) = Some u -> f u = Ok u' -> p u' = true ->
  exists l', update_first p f l = Ok l'
             /\ head (List.filter p l') = Some u'
             /\ List.filter (fun d => negb (p d)) l' = List.filter (fun d => negb (p d)) l.
Proof.
  intros Hhead Hf Hp. induction l as [|d l IH]; simpl in *; [discriminate|].
  destruct (p d) eqn:Hd; simpl in *.
  - inversion Hhead; subst. rewrite Hf. exists (u' :: l). simpl. rewrite Hp. simpl.
    by repeat split.
  - destruct (IH Hhead) as (l' & -> & Hh & Hrest). exists (d :: l'). simpl.
    rewrite Hd. simpl. split; [done|]. split; [done|]. by rewrite Hrest.
Qed.

Lemma update_first_none (p : doc -> bool) (f : doc -> res doc) (l : list doc) :
  head (List.filter p l) = None -> update_first p f l = Ok l.
Proof.
  induction l as [|d l IH]; simpl; [done|].
  destruct (p d); simpl; [discriminate|]. intros H. by rewrite (IH H).
Qed.

Lemma existsb_filter {A} (p : A -> bool) (l : list A) :
  existsb p l = match List.filter p l with [] => false | _ => true end.
Proof.
  induction l as [|x l IH]; simpl; [done|]. destruct (p x); simpl; [done|apply IH].
Qed.

Lemma occurrences_app (v : pyval) (l1 l2 : list pyval) :
  occurrences v (l1 ++ l2) = occurrences v l1 + occurrences v l2.
Proof. unfold occurrences. by rewrite List.filter_app, length_app. Qed.

Lemma update_first_fixed (p : doc -> bool) (f : doc -> res doc) (l : list doc) (u : doc) :
  head (List.filter p l) = Some u -> f u = Ok u -> update_first p f l = Ok l.
Proof.
  intros Hhead Hf. induction l as [|d l IH]; simpl in *; [discriminate|].
  destruct (p d); simpl in *.
  - inversion Hhead; subst. by rewrite Hf.
  - by rewrite (IH Hhead).
Qed.

Lemma add_to_set_list (v : pyval) (u : doc) (l : list pyval) :
  dict_get u "favorites" = Some (PList l) ->
  exists u',
    add_to_set "favorites" v u = Ok u'
    /\ dict_get u' "_id" = dict_get u "_id"
    /\ dict_get u' "favorites"
       = Some (PList (if existsb (pyval_eqb v) l then l else l ++ [v]))
    /\ (existsb (pyval_eqb v) l = true -> u' = u).
Proof.
  intros Hl. unfold add_to_set. rewrite Hl.
  destruct (existsb (pyval_eqb v) l).
  - exists u. by repeat split.
  - eexists. split; [reflexivity|]. split; [by apply dict_get_set_ne|].
    split; [apply dict_get_set_eq|discriminate].
Qed.

Lemma occurrences_after_add (s : string) (l : list pyval) :
  occurrences (PStr s) (if existsb (pyval_eqb (PStr s)) l then l else l ++ [PStr s])
  = Nat.max 1 (occurrences (PStr s) l).
Proof.
  rewrite existsb_filter. unfold occurrences at 2.
  destruct (List.filter (pyval_eqb (PStr s)) l) as [|x xs] eqn:Hf.
  - rewrite occurrences_app. unfold occurrences. rewrite Hf. simpl.
    by rewrite String.eqb_refl.
  - unfold occurrences. rewrite Hf. simpl. lia.
Qed.

Lemma add_favorite_durable (sv : services) (current_user_id recipe_id uid rid : string)
    (recipe_data : doc) (w : world) :
  parse_oid current_user_id = Some uid ->
  parse_oid recipe_id = Some rid ->
  dict_get recipe_data "id" = Some (PStr recipe_id) ->
  add_favorite sv current_user_id (PDict recipe_data) w
  = match update_first (doc_matches sv [("_id", POid uid)])
            (add_to_set "favorites" (PStr recipe_id)) (db_users (mongo w)) with
    | Ok l =>
        (Ok (jsonify (PDict [("message", PStr "Recipe added to favorites");
                             ("recipe_id", PStr recipe_id)])),
         {| mongo := set_coll (mongo w) users l; oid_counter := oid_counter w;
            generate_calls := generate_calls w |})
    | Raise e => (Raise e, w)
    end.
Proof.
  intros Hu Hr Hid. unfold add_favorite.
  destruct recipe_data as [|kv rest]; [discriminate|].
  cbn [truthy negb]. unfold bind, lift, py_get, dict_get_or. rewrite Hid.
  cbn [ObjectId_is_valid]. rewrite Hr. cbn [negb ret ObjectId]. rewrite Hu.
  unfold ret, update_one. cbn [coll].
  by destruct (update_first _ _ _).
Qed.




Lemma pull_list (v : pyval) (u : doc) (l : list pyval) :
  dict_get u "favorites" = Some (PList l) ->
  exists u',
    pull "favorites" v u = Ok u'
    /\ dict_get u' "_id" = dict_get u "_id"
    /\ dict_get u' "favorites"
       = Some (PList (List.filter (fun x => negb (pyval_eqb x v)) l)).
Proof.
  intros Hl. unfold pull. rewrite Hl. eexists. split; [reflexivity|].
  split; [by apply dict_get_set_ne|apply dict_get_set_eq].
Qed.



(** The round trip of the specification: the ad-hoc recipe is stored with
    its instructions under ["steps"], and unfavoriting it by its only
    holder deletes it. *)
Example pesto_round_trip :
  db_recipes (mongo pesto_world)
  = [[("_id", POid pesto_id); ("title", PStr "Pesto"); ("steps", PList [PStr "Blend."])]]
  /\ favorites_of prose_services (mongo pesto_world) alice_id = Some [PStr pesto_id]
  /\ let w' := (remove_favorite prose_services alice_id
                  (PDict [("recipe_id", PStr pesto_id)]) pesto_world).2 in
     db_recipes (mongo w') = []
     /\ favorites_of prose_services (mongo w') alice_id = Some [].
Proof. vm_compute. repeat split. Qed.

Lemma referenced_iff (sv : services) (db : database) (recipe_id : string) :
  referenced sv db recipe_id = true <->
  exists u held,
    In u (db_users db) /\ dict_get u "favorites" = Some held
    /\ field_matches held (PStr recipe_id) = true.
Proof.
  unfold referenced. rewrite existsb_exists. split.
  - intros (u & Hin & Hm). rewrite matches_favorite in Hm.
    destruct (dict_get u "favorites") as [held|] eqn:Hheld; [|discriminate].
    by exists u, held.
  - intros (u & held & Hin & Hheld & Hm). exists u. split; [done|].
    by rewrite matches_favorite, Hheld.
Qed.

(** ** Registration *)

Lemma accounts_named_app (name : string) (l1 l2 : list doc) :
  accounts_named name (l1 ++ l2) = accounts_named name l1 + accounts_named name l2.
Proof. unfold accounts_named. by rewrite List.filter_app, length_app. Qed.

(** Alice registers a second time: the answer is the same success message
    and the account store holds two accounts named alice. *)
Lemma register_twice_duplicates_username :
  accounts_named "alice" (db_users (mongo alice_world)) = 1
  /\ (register prose_services alice_request alice_world).1
     = Ok (jsonify (PDict [("message", PStr "New user created!")]))
  /\ accounts_named "alice"
       (db_users (mongo (register prose_services alice_request alice_world).2)) = 2
  /\ ~ username_unique
         (db_users (mongo (register prose_services alice_request alice_world).2)).
Proof.
  split; [reflexivity|]. split; [reflexivity|]. split; [reflexivity|].
  intros Hunique. specialize (Hunique "alice"). vm_compute in Hunique. lia.
Qed.

(** C9 (amended): [register] does not look at the accounts that exist.  A
    request with a password and a username always succeeds and appends one
    account with a new identifier, the hashed password and no favorites, so
    the number of accounts with that username grows by one, also when it
    was not zero. *)
Theorem register_always_inserts (sv : services) (data : pyval) (w : world)
    (password username : string) :
  py_getitem data "password" = Ok (PStr password) ->
  py_getitem data "username" = Ok (PStr username) ->
  exists w',
    register sv data w
    = (Ok (jsonify (PDict [("message", PStr "New user created!")])), w')
    /\ db_users (mongo w')
       = db_users (mongo w)
         ++ [[("_id", POid (oid_hex (oid_counter w)));
              ("username", PStr username);
              ("password", PStr (generate_password_hash sv password));
              ("favorites", PList [])]]
    /\ accounts_named username (db_users (mongo w'))
       = S (accounts_named username (db_users (mongo w)))
    /\ db_recipes (mongo w') = db_recipes (mongo w)
    /\ db_StoredRecipes (mongo w') = db_StoredRecipes (mongo w).
Proof.
  intros Hp Hn.
  exists {| mongo :=
              set_coll (mongo w) users
                (db_users (mongo w)
                 ++ [[("_id", POid (oid_hex (oid_counter w)));
                      ("username", PStr username);
                      ("password", PStr (generate_password_hash sv password));
                      ("favorites", PList [])]]);
            oid_counter := S (oid_counter w);
            generate_calls := generate_calls w |}.
  split.
  - unfold register, bind, lift. rewrite Hp, Hn. reflexivity.
  - cbn [mongo set_coll db_users db_recipes db_StoredRecipes].
    split; [reflexivity|]. split; [|done].
    rewrite accounts_named_app. unfold accounts_named at 2, has_username.
    cbn [List.filter dict_get String.eqb Ascii.eqb Bool.eqb].
    rewrite String.eqb_refl. cbn [length]. lia.
Qed.

Lemma register_always_inserts_witness :
  exists w',
    register prose_services alice_request alice_world
    = (Ok (jsonify (PDict [("message", PStr "New user created!")])), w')
    /\ db_users (mongo w')
       = db_users (mongo alice_world)
         ++ [[("_id", POid (oid_hex (oid_counter alice_world)));
              ("username", PStr "alice");
              ("password", PStr (generate_password_hash prose_services "wonderland"));
              ("favorites", PList [])]]
    /\ accounts_named "alice" (db_users (mongo w'))
       = S (accounts_named "alice" (db_users (mongo alice_world)))
    /\ db_recipes (mongo w') = db_recipes (mongo alice_world)
    /\ db_StoredRecipes (mongo w') = db_StoredRecipes (mongo alice_world).
Proof.
  apply (register_always_inserts prose_services alice_request alice_world
           "wonderland" "alice"); reflexivity.
Defined.

(** ** The ledger invariant *)

Section Keeps.
Variable I : world -> Prop.

Lemma keeps_ret {A} (a : A) : keeps I (ret a).
Proof. by intros w Hw. Qed.

Lemma keeps_raise {A} (e : exn) : keeps I (@raise A e).
Proof. by intros w Hw. Qed.

Lemma keeps_lift {A} (r : res A) : keeps I (lift r).
Proof. by intros w Hw. Qed.

Lemma keeps_bind {A B} (m : M A) (k : A -> M B) :
  keeps I m -> (forall a, keeps I (k a)) -> keeps I (bind m k).
Proof.
  intros Hm Hk w Hw. unfold bind. specialize (Hm w Hw).
  destruct (m w) as [[a|e] w']; simpl in *; [by apply Hk|done].
Qed.

Lemma keeps_forM {A B} (f : A -> M B) (l : list A) :
  (forall x, keeps I (f x)) -> keeps I (forM f l).
Proof.
  intros Hf. induction l as [|x l IH]; simpl; [apply keeps_ret|].
  apply keeps_bind; [apply Hf|]. intros y.
  apply keeps_bind; [apply IH|]. intros ys. apply keeps_ret.
Qed.
End Keeps.

Lemma keeps_mongo {A} (m : M A) :
  (forall w, mongo (m w).2 = mongo w) -> keeps ledger_ok m.
Proof. intros Hm w Hw. unfold ledger_ok in *. by rewrite Hm. Qed.

Lemma keeps_ObjectId (v : pyval) : keeps ledger_ok (ObjectId v).
Proof.
  apply keeps_mongo. intros w.
  destruct v as [| | |s| | |]; try done. simpl. by destruct (parse_oid s).
Qed.

Lemma keeps_find_one (sv : services) (c : collection) (query : doc) :
  keeps ledger_ok (find_one sv c query).
Proof. by apply keeps_mongo. Qed.

Lemma keeps_find_matching_recipes (sv : services) (a b c : pyval) (l : list string) :
  keeps ledger_ok (find_matching_recipes sv a b c l).
Proof. apply keeps_mongo. intros w. by rewrite find_matching_recipes_run. Qed.

Lemma keeps_generation_phase (sv : services) (model : string -> option string)
    (prompt : string) (final_recipes : list pyval) :
  keeps ledger_ok (generation_phase sv model prompt final_recipes).
Proof.
  apply keeps_mongo. intros w.
  unfold generation_phase, ai_candidates, generate_content, bind, lift.
  destruct (model prompt) as [text|]; simpl.
  - destruct (json_loads sv (clean_response text)) as [v|]; simpl.
    + destruct (merge_candidates final_recipes v) as [merged [[]|e]];
        by destruct merged.
    + by destruct final_recipes.
  - by destruct final_recipes.
Qed.

Lemma favorites_distinct_new (i username password : pyval) :
  favorites_distinct
    [("_id", i); ("username", username); ("password", password); ("favorites", PList [])].
Proof. exists []. split; [done|]. intros s. unfold occurrences. simpl. lia. Qed.

Lemma occurrences_filter_le (v : pyval) (q : pyval -> bool) (l : list pyval) :
  occurrences v (List.filter q l) <= occurrences v l.
Proof.
  unfold occurrences. induction l as [|x l IH]; simpl; [done|].
  destruct (q x); simpl; destruct (pyval_eqb v x); simpl; lia.
Qed.

Lemma add_to_set_distinct (v : pyval) (u u' : doc) :
  favorites_distinct u -> add_to_set "favorites" v u = Ok u' -> favorites_distinct u'.
Proof.
  intros (l & Hl & Hocc) Hadd.
  destruct (add_to_set_list v u l Hl) as (u0 & Hadd0 & _ & Hfav & _).
  rewrite Hadd in Hadd0. inversion Hadd0; subst u0.
  eexists. split; [exact Hfav|]. intros s.
  destruct (existsb (pyval_eqb v) l) eqn:He; [apply Hocc|].
  rewrite occurrences_app. unfold occurrences at 2. cbn [List.filter].
  destruct (pyval_eqb (PStr s) v) eqn:Hv; cbn [length].
  - apply pyval_eqb_str in Hv as ->. rewrite existsb_filter in He.
    unfold occurrences.
    destruct (List.filter (pyval_eqb (PStr s)) l); [simpl; lia|discriminate].
  - specialize (Hocc s). lia.
Qed.

Lemma pull_distinct (v : pyval) (u u' : doc) :
  favorites_distinct u -> pull "favorites" v u = Ok u' -> favorites_distinct u'.
Proof.
  intros (l & Hl & Hocc) Hpull.
  destruct (pull_list v u l Hl) as (u0 & Hpull0 & _ & Hfav).
  rewrite Hpull in Hpull0. inversion Hpull0; subst u0.
  eexists. split; [exact Hfav|]. intros s.
  pose proof (occurrences_filter_le (PStr s) (fun x => negb (pyval_eqb x v)) l).
  specialize (Hocc s). lia.
Qed.

Lemma update_first_Forall (P : doc -> Prop) (p : doc -> bool) (f : doc -> res doc)
    (l l' : list doc) :
  (forall u u', P u -> f u = Ok u' -> P u') ->
  Forall P l -> update_first p f l = Ok l' -> Forall P l'.
Proof.
  intros Hf. revert l'. induction l as [|d l IH]; intros l' Hl Hupd; simpl in Hupd.
  - by inversion Hupd.
  - inversion Hl as [|? ? Hd Hrest]; subst. destruct (p d).
    + destruct (f d) as [d'|] eqn:Hfd; [|discriminate]. inversion Hupd; subst.
      constructor; [by apply (Hf d)|done].
    + destruct (update_first p f l) as [l''|]; [|discriminate]. inversion Hupd; subst.
      constructor; [done|by apply IH].
Qed.

Lemma keeps_update_favorites (sv : services) (query : doc) (f : doc -> res doc) :
  (forall u u', favorites_distinct u -> f u = Ok u' -> favorites_distinct u') ->
  keeps ledger_ok (update_one sv users query f).
Proof.
  intros Hf w Hw. unfold update_one. cbn [coll].
  destruct (update_first _ f (db_users (mongo w))) as [l|] eqn:Hupd; [|done].
  unfold ledger_ok. cbn. by apply (update_first_Forall _ _ _ _ _ Hf Hw Hupd).
Qed.

Lemma keeps_recipes_insert (d : doc) : keeps ledger_ok (insert_one recipes d).
Proof.
  intros w Hw. unfold insert_one.
  destruct (dict_get d "_id") as [i|].
  - destruct (existsb _ (coll (mongo w) recipes)); done.
  - done.
Qed.

Lemma keeps_recipes_delete (sv : services) (query : doc) :
  keeps ledger_ok (delete_one sv recipes query).
Proof. by intros w Hw. Qed.

Lemma keeps_users_insert (username password : pyval) :
  keeps ledger_ok
    (insert_one users [("username", username); ("password", password);
                       ("favorites", PList [])]).
Proof.
  intros w Hw. unfold ledger_ok. cbn. apply Forall_app. split; [done|].
  constructor; [apply favorites_distinct_new|done].
Qed.

Lemma keeps_add_to_set (sv : services) (query : doc) (v : pyval) :
  keeps ledger_ok (update_one sv users query (add_to_set "favorites" v)).
Proof. apply keeps_update_favorites. intros u u'. apply add_to_set_distinct. Qed.

Lemma keeps_pull (sv : services) (query : doc) (v : pyval) :
  keeps ledger_ok (update_one sv users query (pull "favorites" v)).
Proof. apply keeps_update_favorites. intros u u'. apply pull_distinct. Qed.

Create HintDb keeps.
#[local] Hint Resolve keeps_ret keeps_raise keeps_lift keeps_ObjectId keeps_find_one
  keeps_find_matching_recipes keeps_generation_phase keeps_recipes_insert
  keeps_recipes_delete keeps_users_insert keeps_add_to_set keeps_pull : keeps.

Ltac keeps_step :=
  match goal with
  | |- keeps _ (bind _ _) => apply keeps_bind; [|intros ?]
  | |- keeps _ (if ?b then _ else _) => destruct b
  | |- keeps _ (match ?x with _ => _ end) => destruct x
  | |- keeps _ _ => solve [auto with keeps]
  end.

Lemma keeps_lookup_favorite (sv : services) (fav_id : pyval) :
  keeps ledger_ok (lookup_favorite sv fav_id).
Proof. unfold lookup_favorite. repeat keeps_step. Qed.

Lemma handle_keeps_ledger (sv : services) (rq : request) :
  keeps ledger_ok (handle sv rq).
Proof.
  destruct rq as [data|uid|uid data|uid data|data|data]; simpl.
  - unfold register. repeat keeps_step.
  - unfold get_favorites. repeat keeps_step.
    apply keeps_forM. apply keeps_lookup_favorite.
  - unfold add_favorite. repeat keeps_step.
  - unfold remove_favorite. repeat keeps_step.
  - unfold public_recipes. repeat keeps_step.
  - unfold generate_recipes, prepare_generation. repeat keeps_step.
Qed.

(** In every world the handlers lead to from a database without accounts,
    no account holds an identifier twice among its favorites. *)
Lemma reachable_ledger_ok (sv : services) (w : world) :
  reachable sv w -> ledger_ok w.
Proof.
  induction 1 as [w Hstart|w rq Hw IH].
  - unfold ledger_ok. rewrite Hstart. constructor.
  - by apply handle_keeps_ledger.
Qed.

Lemma reachable_favorites_distinct (sv : services) (w : world) (uid : string)
    (favorites : list pyval) (recipe_id : string) :
  reachable sv w ->
  favorites_of sv (mongo w) uid = Some favorites ->
  occurrences (PStr recipe_id) favorites <= 1.
Proof.
  intros Hw Hfav. apply reachable_ledger_ok in Hw.
  unfold favorites_of, user_of, find in Hfav. cbn [coll] in Hfav.
  destruct (head (List.filter _ (db_users (mongo w)))) as [u|] eqn:Hhead; [|discriminate].
  apply head_Some_elem_of, list_elem_of_In, List.filter_In in Hhead as [Hin _].
  unfold ledger_ok in Hw. rewrite Forall_forall in Hw.
  destruct (Hw u (proj2 (list_elem_of_In _ _) Hin)) as (l & Hl & Hocc).
  rewrite Hl in Hfav. inversion Hfav; subst. apply Hocc.
Qed.

(** ** Adding a favorite twice *)

(** C7: for a caller with an account and a durable recipe identifier, the
    first [add_favorite] leaves the identifier in the caller's favorites,
    as often as it was there before and at least once, which is exactly
    once in every world the handlers lead to; the second call answers the
    same and leaves the world as the first one left it. *)
Theorem add_favorite_idempotent (sv : services)
    (current_user_id recipe_id uid rid : string)
    (recipe_data : doc) (w : world) (favorites : list pyval) :
  parse_oid current_user_id = Some uid ->
  parse_oid recipe_id = Some rid ->
  dict_get recipe_data "id" = Some (PStr recipe_id) ->
  favorites_of sv (mongo w) uid = Some favorites ->
  exists w1 r favorites1,
    add_favorite sv current_user_id (PDict recipe_data) w = (Ok r, w1)
    /\ add_favorite sv current_user_id (PDict recipe_data) w1 = (Ok r, w1)
    /\ favorites_of sv (mongo w1) uid = Some favorites1
    /\ occurrences (PStr recipe_id) favorites1
       = Nat.max 1 (occurrences (PStr recipe_id) favorites)
    /\ (reachable sv w -> occurrences (PStr recipe_id) favorites1 = 1).
Proof.
  intros Hu Hr Hid Hfav.
  unfold favorites_of, user_of, find in Hfav. cbn [coll] in Hfav.
  destruct (head (List.filter _ (db_users (mongo w)))) as [u|] eqn:Hhead; [|discriminate].
  destruct (dict_get u "favorites") as [[| | | |l| |]|] eqn:Hl; try discriminate.
  inversion Hfav; subst l.
  destruct (add_to_set_list (PStr recipe_id) u favorites Hl)
    as (u' & Hadd & Hid' & Hfav' & Hsame).
  assert (doc_matches sv [("_id", POid uid)] u' = true) as Hp.
  { rewrite (matches_id sv), Hid', <- (matches_id sv).
    apply head_Some_elem_of, list_elem_of_In, List.filter_In in Hhead. tauto. }
  destruct (update_first_head _ _ _ _ _ Hhead Hadd Hp) as (l' & Hupd & Hhead' & _).
  pose proof (occurrences_after_add recipe_id favorites) as Hocc.
  eexists _, _, _. split; [|split; [|split; [|split]]].
  - rewrite (add_favorite_durable _ _ _ _ _ _ _ Hu Hr Hid), Hupd. reflexivity.
  - rewrite (add_favorite_durable _ _ _ _ _ _ _ Hu Hr Hid). cbn [mongo].
    assert (db_users (set_coll (mongo w) users l') = l') as -> by done.
    rewrite (update_first_fixed _ _ _ u' Hhead').
    + by destruct (mongo w).
    + unfold add_to_set. rewrite Hfav'.
      assert (existsb (pyval_eqb (PStr recipe_id))
                (if existsb (pyval_eqb (PStr recipe_id)) favorites
                 then favorites else favorites ++ [PStr recipe_id]) = true) as ->; [|done].
      destruct (existsb (pyval_eqb (PStr recipe_id)) favorites) eqn:He; [done|].
      rewrite existsb_app. simpl. by rewrite String.eqb_refl, orb_true_r.
  - unfold favorites_of, user_of, find. cbn [mongo coll].
    assert (db_users (set_coll (mongo w) users l') = l') as -> by done.
    rewrite Hhead', Hfav'. reflexivity.
  - exact Hocc.
  - intros Hw. rewrite Hocc.
    pose proof (reachable_favorites_distinct sv w uid favorites recipe_id Hw) as Hle.
    unfold favorites_of, user_of, find in Hle. cbn [coll] in Hle.
    rewrite Hhead, Hl in Hle. specialize (Hle eq_refl). lia.
Qed.

Lemma add_favorite_idempotent_witness :
  exists w1 r favorites1,
    add_favorite prose_services alice_id (PDict [("id", PStr soup_id)]) alice_world
    = (Ok r, w1)
    /\ add_favorite prose_services alice_id (PDict [("id", PStr soup_id)]) w1 = (Ok r, w1)
    /\ favorites_of prose_services (mongo w1) alice_id = Some favorites1
    /\ occurrences (PStr soup_id) favorites1 = Nat.max 1 (occurrences (PStr soup_id) [])
    /\ (reachable prose_services alice_world ->
        occurrences (PStr soup_id) favorites1 = 1).
Proof.
  apply (add_favorite_idempotent prose_services alice_id soup_id alice_id soup_id
           [("id", PStr soup_id)] alice_world []); reflexivity.
Defined.

(** Alice favorites the soup twice: her favorites hold it once. *)
Example alice_adds_soup_twice :
  let add := add_favorite prose_services alice_id (PDict [("id", PStr soup_id)]) in
  favorites_of prose_services (mongo (add (add alice_world).2).2) alice_id
  = Some [PStr soup_id].
Proof. vm_compute. reflexivity. Qed.

(** The sample worlds are worlds the handlers lead to. *)
Example pesto_world_reachable : reachable prose_services pesto_world.
Proof.
  apply (reachable_step prose_services alice_world (AddFavorite alice_id pesto_request)).
  apply (reachable_step prose_services stocked_world (Register alice_request)).
  by apply reachable_start.
Qed.

(** Identifiers as [ObjectId] reads them: 24 hexadecimal digits in either
    case; bytes separated by white space are accepted too. *)
Example parse_oid_samples :
  parse_oid soup_id = Some soup_id
  /\ parse_oid "65AB000000000000000000ff" = Some "65ab000000000000000000ff"
  /\ parse_oid "aa bb cc dd ee ff 00 11 " = Some "aabbccddeeff0011"
  /\ parse_oid "tomato-soup" = None
  /\ parse_oid "65000000000000000000000g" = None.
Proof. repeat split. Qed.

(** * Further properties *)

(** ** The duplicate filter, whatever the candidates *)

(** X1: whatever the candidates are, and also when an exception stops the
    loop, what the loop of lines 311-315 appends is a subsequence of the
    candidates whose lowercased titles are pairwise different and none of
    which was in the set at the start. *)
Theorem dedup_loop_titles_distinct (existing : gset string)
    (final_recipes candidates : list pyval) :
  exists added,
    (dedup_loop existing final_recipes candidates).1.1 = final_recipes ++ added
    /\ sublist added candidates
    /\ NoDup (key_of <$> added)
    /\ forall c, c ∈ added -> key_of c ∉ existing.
Proof.
  revert existing final_recipes.
  induction candidates as [|c l IH]; intros existing final_recipes; simpl.
  - exists []. rewrite app_nil_r. repeat split; [done|constructor|].
    intros c Hc. by apply not_elem_of_nil in Hc.
  - destruct (title_key c) as [t|e] eqn:Hc.
    + destruct (decide (t ∈ existing)) as [Hin|Hnin].
      * destruct (IH existing final_recipes) as (added & H1 & H2 & H3 & H4).
        exists added. repeat split; [done|by apply sublist_cons|done|done].
      * destruct (IH ({[t]} ∪ existing) (final_recipes ++ [c]))
          as (added & H1 & H2 & H3 & H4).
        assert (key_of c = t) as Hkey by (unfold key_of; by rewrite Hc).
        exists (c :: added). rewrite H1, <- app_assoc. simpl.
        split; [done|]. split; [by apply sublist_skip|]. split.
        -- rewrite Hkey. constructor; [|done].
           intros Hdup. apply list_elem_of_fmap in Hdup as (c' & Heq & Hc').
           apply (H4 c' Hc'). rewrite <- Heq. set_solver.
        -- intros c' Hc'. apply elem_of_cons in Hc' as [->|Hc'].
           ++ by rewrite Hkey.
           ++ specialize (H4 c' Hc'). set_solver.
    + exists []. rewrite app_nil_r. repeat split; [apply sublist_nil_l|constructor|].
      intros c' Hc'. by apply not_elem_of_nil in Hc'.
Qed.



(** ** [generate_recipes] beyond the failure paths *)

Lemma prepare_generation_world (sv : services) (data : pyval) (w : world) :
  (prepare_generation sv data w).2 = w.
Proof.
  unfold prepare_generation, bind, lift, ret.
  destruct (lacks data "ingredients") as [[|]|]; try done.
  destruct (py_get data "ingredients" (PList [])) as [ingredients|]; [|done].
  destruct (py_get data "dietary" (PList [])) as [dietary|]; [|done].
  destruct (py_get data "servings" (PInt 2)) as [servings|]; [|done].
  destruct (py_get data "cuisine" (PStr "any")) as [cuisine|]; [|done].
  destruct (text_model sv) as [model|]; [|done].
  rewrite find_matching_recipes_run.
  destruct (search_filter ingredients cuisine) as [query|]; [|done].
  destruct (mapM format_db_match _) as [final|]; [|done].
  by destruct (build_prompt _ _ _ _ _ _).
Qed.

Lemma generation_phase_world (sv : services) (model : string -> option string)
    (prompt : string) (final_recipes : list pyval) (w : world) :
  (generation_phase sv model prompt final_recipes w).2
  = {| mongo := mongo w; oid_counter := oid_counter w;
       generate_calls := generate_calls w ++ [prompt] |}.
Proof.
  unfold generation_phase, ai_candidates, generate_content, bind, lift.
  destruct (model prompt) as [text|]; simpl.
  - destruct (json_loads sv (clean_response text)) as [v|]; simpl.
    + destruct (merge_candidates final_recipes v) as [merged [[]|e]];
        by destruct merged.
    + by destruct final_recipes.
  - by destruct final_recipes.
Qed.

Lemma mapM_stops {A B} (f : A -> res B) (pre post : list A) (bad : A)
    (ys : list B) (e : exn) :
  mapM f pre = Ok ys -> f bad = Raise e -> mapM f (pre ++ bad :: post) = Raise e.
Proof.
  revert ys. induction pre as [|x pre IH]; intros ys Hpre Hbad; simpl.
  - by rewrite Hbad.
  - apply mapM_cons_inv in Hpre as (y & ys' & -> & Hx & Hpre).
    by rewrite Hx, (IH ys' Hpre Hbad).
Qed.



(** X4: without an API key the request is answered 500 as soon as it has
    its ingredients: the stored recipes are not searched and not returned,
    and the world is left as it was. *)
Theorem generate_recipes_needs_the_model (sv : services) (d : doc) (w : world)
    (ingredients : pyval) :
  text_model sv = None ->
  dict_get d "ingredients" = Some ingredients ->
  generate_recipes sv (PDict d) w
  = (Ok (jsonify_status
           (PDict [("error", PStr "Gemini API key not configured on the server.")]) 500),
     w).
Proof.
  intros Hmodel Hing. unfold generate_recipes, prepare_generation, bind, lift, lacks.
  destruct d as [|kv d'] eqn:Hd; [discriminate|]. rewrite <- Hd in *.
  assert (truthy (PDict d) = true) as -> by (by rewrite Hd).
  unfold py_contains, dict_has, rbind, py_get. rewrite Hing, Hmodel. reflexivity.
Qed.

Lemma generate_recipes_needs_the_model_witness :
  generate_recipes keyless_services tomato_request stocked_world
  = (Ok (jsonify_status
           (PDict [("error", PStr "Gemini API key not configured on the server.")]) 500),
     stocked_world).
Proof.
  apply (generate_recipes_needs_the_model keyless_services
           [("ingredients", PList [PStr "tomato"])] stocked_world
           (PList [PStr "tomato"])); reflexivity.
Defined.

(** X5: a request to [generate_recipes] calls the model at most once and
    never retries; it changes neither the database nor the identifier
    counter. *)
Theorem generate_recipes_calls_model_at_most_once (sv : services) (data : pyval)
    (w : world) :
  mongo (generate_recipes sv data w).2 = mongo w
  /\ oid_counter (generate_recipes sv data w).2 = oid_counter w
  /\ (generate_calls (generate_recipes sv data w).2 = generate_calls w
      \/ exists prompt,
           generate_calls (generate_recipes sv data w).2 = generate_calls w ++ [prompt]).
Proof.
  unfold generate_recipes, bind.
  pose proof (prepare_generation_world sv data w) as Hw.
  destruct (prepare_generation sv data w) as [[[r|model db_matches final prompt]|e] w'];
    simpl in Hw; subst w'.
  - simpl. repeat split; by left.
  - rewrite generation_phase_world. simpl. repeat split. right. by exists prompt.
  - simpl. repeat split; by left.
Qed.

(** X6: one stored match that cannot be normalized fails the whole
    request: when the matches before it are normalized and it raises, for
    want of a title or for a nutrition that is no object, the exception
    leaves [generate_recipes] and the model is never called. *)
Theorem generate_recipes_fails_on_malformed_match (sv : services) (d : doc) (w : world)
    (model : string -> option string) (ingredients : pyval) (query : doc)
    (pre post : list doc) (bad : doc) (shown : list pyval) (e : exn) :
  text_model sv = Some model ->
  dict_get d "ingredients" = Some ingredients ->
  search_filter ingredients (dict_get_or d "cuisine" (PStr "any")) = Ok query ->
  fetch_matches sv (mongo w) query ["StoredRecipes"; "recipes"] = pre ++ bad :: post ->
  mapM format_db_match pre = Ok shown ->
  format_db_match bad = Raise e ->
  generate_recipes sv (PDict d) w = (Raise e, w).
Proof.
  intros Hmodel Hing Hquery Hfetch Hpre Hbad.
  unfold generate_recipes, prepare_generation, bind, lift, lacks.
  destruct d as [|kv d'] eqn:Hd; [discriminate|]. rewrite <- Hd in *.
  assert (truthy (PDict d) = true) as -> by (by rewrite Hd).
  unfold py_contains, dict_has, rbind, py_get. rewrite Hing, Hmodel. cbn [negb].
  rewrite find_matching_recipes_run.
  unfold dict_get_or at 1. rewrite Hing, Hquery, Hfetch.
  by rewrite (mapM_stops _ _ _ _ _ _ Hpre Hbad).
Qed.

Lemma generate_recipes_fails_on_malformed_match_witness :
  generate_recipes prose_services tomato_request broth_world
  = (Raise AttributeError, broth_world).
Proof.
  eapply (generate_recipes_fails_on_malformed_match prose_services
            [("ingredients", PList [PStr "tomato"])] broth_world _
            (PList [PStr "tomato"]) _ [full_record] [] null_nutrition_record);
    reflexivity.
Defined.

(** ** What the handlers leave alone *)

Lemma keeps_reads_only (I : world -> Prop) {A} (m : M A) :
  (forall w w', mongo w = mongo w' -> I w -> I w') ->
  reads_only m -> keeps I m.
Proof. intros HI Hm w Hw. apply (HI w); [by rewrite Hm|done]. Qed.

Lemma reads_only_ObjectId (v : pyval) : reads_only (ObjectId v).
Proof.
  intros w. destruct v as [| | |s| | |]; try done. simpl. by destruct (parse_oid s).
Qed.

Lemma reads_only_find_one (sv : services) (c : collection) (query : doc) :
  reads_only (find_one sv c query).
Proof. by intros w. Qed.

Lemma reads_only_find_matching_recipes (sv : services) (a b c : pyval) (l : list string) :
  reads_only (find_matching_recipes sv a b c l).
Proof. intros w. by rewrite find_matching_recipes_run. Qed.

Lemma reads_only_generation_phase (sv : services) (model : string -> option string)
    (prompt : string) (final_recipes : list pyval) :
  reads_only (generation_phase sv model prompt final_recipes).
Proof. intros w. by rewrite generation_phase_world. Qed.

Ltac keeps_by tac :=
  repeat match goal with
         | |- keeps _ (bind _ _) => apply keeps_bind; [|intros ?]
         | |- keeps _ (forM _ _) => apply keeps_forM; intros ?
         | |- keeps _ (if ?b then _ else _) => destruct b
         | |- keeps _ (match ?x with _ => _ end) => destruct x
         | |- keeps _ _ => solve [tac]
         end.

Section SameDatabase.
Variable db : database.

Let same (w : world) : Prop := mongo w = db.

Lemma same_reads_only {A} (m : M A) : reads_only m -> keeps same m.
Proof. apply keeps_reads_only. unfold same. by intros w w' ->. Qed.

Lemma same_get_favorites (sv : services) (current_user_id : string) :
  keeps same (get_favorites sv current_user_id).
Proof.
  unfold get_favorites, lookup_favorite.
  keeps_by ltac:(first [ apply keeps_ret | apply keeps_lift
                       | apply same_reads_only, reads_only_ObjectId
                       | apply same_reads_only, reads_only_find_one ]).
Qed.

Lemma same_login (sv : services) (au : auth_services) (data : pyval) :
  keeps same (login sv au data).
Proof.
  unfold login.
  keeps_by ltac:(first [ apply keeps_ret | apply keeps_lift
                       | apply same_reads_only, reads_only_find_one ]).
Qed.

Lemma same_public_recipes (sv : services) (data : pyval) :
  keeps same (public_recipes sv data).
Proof.
  unfold public_recipes.
  keeps_by ltac:(first [ apply keeps_ret | apply keeps_lift
                       | apply same_reads_only, reads_only_find_matching_recipes ]).
Qed.

Lemma same_generate_recipes (sv : services) (data : pyval) :
  keeps same (generate_recipes sv data).
Proof.
  unfold generate_recipes, prepare_generation.
  keeps_by ltac:(first [ apply keeps_ret | apply keeps_lift
                       | apply same_reads_only, reads_only_find_matching_recipes
                       | apply same_reads_only, reads_only_generation_phase ]).
Qed.
End SameDatabase.

(** X7: listing the favorites, logging in, the public search and the
    recipe generation never write to the database, however they end. *)
Theorem reading_handlers_do_not_write (sv : services) (au : auth_services)
    (current_user_id : string) (data : pyval) :
  reads_only (get_favorites sv current_user_id)
  /\ reads_only (login sv au data)
  /\ reads_only (public_recipes sv data)
  /\ reads_only (generate_recipes sv data).
Proof.
  repeat split; intros w.
  - by apply (same_get_favorites (mongo w)).
  - by apply (same_login (mongo w)).
  - by apply (same_public_recipes (mongo w)).
  - by apply (same_generate_recipes (mongo w)).
Qed.

Section StoredUntouched.
Variable stored : list doc.

Let untouched (w : world) : Prop := db_StoredRecipes (mongo w) = stored.

Lemma untouched_reads_only {A} (m : M A) : reads_only m -> keeps untouched m.
Proof. apply keeps_reads_only. unfold untouched. by intros w w' ->. Qed.

Lemma untouched_update_users (sv : services) (query : doc) (f : doc -> res doc) :
  keeps untouched (update_one sv users query f).
Proof.
  intros w Hw. unfold update_one. by destruct (update_first _ f (coll (mongo w) users)).
Qed.

Lemma untouched_insert (c : collection) (d : doc) :
  c <> StoredRecipes -> keeps untouched (insert_one c d).
Proof.
  intros Hc w Hw. unfold insert_one. destruct (dict_get d "_id") as [i|].
  - destruct (existsb _ (coll (mongo w) c)); [done|]. by destruct c.
  - by destruct c.
Qed.

Lemma untouched_delete_recipes (sv : services) (query : doc) :
  keeps untouched (delete_one sv recipes query).
Proof. by intros w Hw. Qed.

Lemma untouched_handle (sv : services) (rq : request) : keeps untouched (handle sv rq).
Proof.
  destruct rq as [data|uid|uid data|uid data|data|data]; simpl.
  - unfold register.
    keeps_by ltac:(first [ apply keeps_ret | apply keeps_lift
                         | by apply untouched_insert ]).
  - apply untouched_reads_only. intros w. by apply (same_get_favorites (mongo w)).
  - unfold add_favorite.
    keeps_by ltac:(first [ apply keeps_ret | apply keeps_lift
                         | by apply untouched_insert
                         | apply untouched_reads_only, reads_only_ObjectId
                         | apply untouched_update_users ]).
  - unfold remove_favorite.
    keeps_by ltac:(first [ apply keeps_ret | apply keeps_lift
                         | apply untouched_reads_only, reads_only_ObjectId
                         | apply untouched_reads_only, reads_only_find_one
                         | apply untouched_update_users
                         | apply untouched_delete_recipes ]).
  - apply untouched_reads_only. intros w. by apply (same_public_recipes (mongo w)).
  - apply untouched_reads_only. intros w. by apply (same_generate_recipes (mongo w)).
Qed.
End StoredUntouched.

(** X8: no request changes the curated collection [StoredRecipes]:
    favoriting stores ad-hoc recipes in [recipes] only, and unfavoriting
    deletes from [recipes] only, also for an identifier of a curated
    recipe. *)
Theorem stored_recipes_never_change (sv : services) (rq : request) (w : world) :
  db_StoredRecipes (mongo (handle sv rq w).2) = db_StoredRecipes (mongo w).
Proof. by apply (untouched_handle (db_StoredRecipes (mongo w))). Qed.

(** X9: in every world the handlers lead to from a database without
    accounts, the favorites of every account are a list in which no
    identifier occurs twice. *)
Theorem favorites_never_duplicated (sv : services) (w : world) :
  reachable sv w ->
  forall u, In u (db_users (mongo w)) ->
    exists l, dict_get u "favorites" = Some (PList l)
              /\ forall s, occurrences (PStr s) l <= 1.
Proof.
  intros Hw.
  assert (ledger_ok w) as Hok.
  { induction Hw as [w Hstart|w rq Hw IH].
    - unfold ledger_ok. rewrite Hstart. constructor.
    - by apply handle_keeps_ledger. }
  intros u Hu. unfold ledger_ok in Hok. rewrite Forall_forall in Hok.
  apply Hok. by apply list_elem_of_In.
Qed.

Lemma favorites_never_duplicated_witness :
  List.Forall
    (fun u => exists l, dict_get u "favorites" = Some (PList l)
                        /\ forall s, occurrences (PStr s) l <= 1)
    (db_users (mongo pesto_world)).
Proof.
  apply List.Forall_forall.
  apply (favorites_never_duplicated prose_services pesto_world).
  apply (reachable_step prose_services alice_world (AddFavorite alice_id pesto_request)).
  apply (reachable_step prose_services stocked_world (Register alice_request)).
  apply reachable_start. reflexivity.
Defined.

(** ** Ad-hoc recipes in the ledger *)

Lemma hex_digit_lower_hex (m : nat) : is_lower_hex (hex_digit m) = true.
Proof. do 17 (destruct m as [|m]; [by vm_compute|]). by vm_compute. Qed.

Lemma all_chars_app (p : ascii -> bool) (s1 s2 : string) :
  all_chars p (s1 +:+ s2) = all_chars p s1 && all_chars p s2.
Proof.
  induction s1 as [|c s1 IH]; simpl; [done|]. rewrite IH. by destruct (p c).
Qed.

Lemma string_length_app (s1 s2 : string) :
  String.length (s1 +:+ s2) = String.length s1 + String.length s2.
Proof. induction s1 as [|c s1 IH]; simpl; [done|]. by rewrite IH. Qed.

Lemma hex_of_nat_shape (fuel n : nat) :
  String.length (hex_of_nat fuel n) = fuel
  /\ all_chars is_lower_hex (hex_of_nat fuel n) = true.
Proof.
  revert n. induction fuel as [|fuel IH]; intros n; [done|].
  cbn [hex_of_nat]. destruct (IH (n / 16)) as [Hlen Hall].
  rewrite string_length_app, all_chars_app, Hlen, Hall.
  cbn [String.length all_chars andb]. rewrite hex_digit_lower_hex. split; [lia|done].
Qed.

Lemma fromhex_lower_hex (k : nat) (s : string) :
  String.length s = 2 * k -> all_chars is_lower_hex s = true -> fromhex s = Some s.
Proof.
  revert s. induction k as [|k IH]; intros s Hlen Hall.
  - by destruct s.
  - destruct s as [|c [|c' s]]; try (simpl in Hlen; lia).
    simpl in Hall. apply andb_true_iff in Hall as [Hc Hall].
    apply andb_true_iff in Hall as [Hc' Hall].
    unfold is_lower_hex in Hc, Hc'.
    apply andb_true_iff in Hc as [Hc Hlc]. apply andb_true_iff in Hc as [Hsp Hhex].
    apply andb_true_iff in Hc' as [Hc' Hlc']. apply andb_true_iff in Hc' as [_ Hhex'].
    apply negb_true_iff in Hsp. apply Ascii.eqb_eq in Hlc, Hlc'.
    cbn [fromhex]. rewrite Hsp, Hhex, Hhex', Hlc, Hlc'. cbn [andb].
    rewrite (IH s); [done| |done]. simpl in Hlen. lia.
Qed.

Lemma parse_oid_fresh (n : nat) : parse_oid (oid_hex n) = Some (oid_hex n).
Proof.
  unfold parse_oid, oid_hex. destruct (hex_of_nat_shape 24 n) as [Hlen Hall].
  rewrite Hlen. cbn [Nat.eqb]. by apply (fromhex_lower_hex 12).
Qed.

Lemma dict_get_del_eq (d : doc) (k : string) : dict_get (dict_del d k) k = None.
Proof.
  induction d as [|[k' v'] d IH]; simpl; [done|].
  destruct (String.eqb k' k) eqn:Hk; simpl; [done|]. by rewrite Hk.
Qed.

Lemma dict_get_del_ne (d : doc) (k k' : string) :
  k <> k' -> dict_get (dict_del d k) k' = dict_get d k'.
Proof.
  intros Hne. induction d as [|[k0 v0] d IH]; simpl; [done|].
  destruct (String.eqb k0 k) eqn:Hk; simpl.
  - apply String.eqb_eq in Hk as ->. by rewrite (proj2 (String.eqb_neq k k')).
  - by rewrite IH.
Qed.

Lemma adhoc_record_fields (recipe_data : doc) :
  dict_get (adhoc_record recipe_data) "id" = None
  /\ dict_get (adhoc_record recipe_data) "instructions" = None
  /\ dict_get (adhoc_record recipe_data) "steps"
     = match dict_get recipe_data "instructions" with
       | Some v => Some v
       | None => dict_get recipe_data "steps"
       end
  /\ forall k, k <> "id" -> k <> "instructions" -> k <> "steps" ->
       dict_get (adhoc_record recipe_data) k = dict_get recipe_data k.
Proof.
  unfold adhoc_record. rewrite (dict_get_del_ne recipe_data "id" "instructions") by done.
  destruct (dict_get recipe_data "instructions") as [v|] eqn:Hv.
  - repeat split.
    + rewrite dict_get_set_ne, dict_get_del_ne by done. apply dict_get_del_eq.
    + rewrite dict_get_set_ne by done. apply dict_get_del_eq.
    + apply dict_get_set_eq.
    + intros k H1 H2 H3.
      rewrite dict_get_set_ne, !dict_get_del_ne by done. done.
  - repeat split.
    + apply dict_get_del_eq.
    + by rewrite dict_get_del_ne.
    + by rewrite dict_get_del_ne.
    + intros k H1 H2 H3. by rewrite dict_get_del_ne.
Qed.

Lemma add_favorite_adhoc (sv : services) (current_user_id uid : string)
    (recipe_data : doc) (w : world) :
  parse_oid current_user_id = Some uid ->
  recipe_data <> [] ->
  ObjectId_is_valid (dict_get_or recipe_data "id" PNone) = false ->
  dict_get recipe_data "_id" = None ->
  let fresh := oid_hex (oid_counter w) in
  let stored := ("_id", POid fresh) :: adhoc_record recipe_data in
  let db1 := set_coll (mongo w) recipes (db_recipes (mongo w) ++ [stored]) in
  add_favorite sv current_user_id (PDict recipe_data) w
  = match update_first (doc_matches sv [("_id", POid uid)])
            (add_to_set "favorites" (PStr fresh)) (db_users (mongo w)) with
    | Ok l =>
        (Ok (jsonify (PDict [("message", PStr "Recipe added to favorites");
                             ("recipe_id", PStr fresh)])),
         {| mongo := set_coll db1 users l; oid_counter := S (oid_counter w);
            generate_calls := generate_calls w |})
    | Raise e =>
        (Raise e,
         {| mongo := db1; oid_counter := S (oid_counter w);
            generate_calls := generate_calls w |})
    end.
Proof.
  intros Hu Hne Hid Hnoid fresh stored db1. unfold add_favorite.
  destruct recipe_data as [|kv rest] eqn:Hd; [done|]. rewrite <- Hd in *.
  assert (truthy (PDict recipe_data) = true) as -> by (by rewrite Hd).
  cbn [negb]. unfold bind, lift, py_get. rewrite Hid. cbn [negb].
  fold (adhoc_record recipe_data). unfold insert_one.
  destruct (adhoc_record_fields recipe_data) as (_ & _ & _ & Hother).
  rewrite (Hother "_id") by done. rewrite Hnoid.
  unfold bind, fresh_oid, get_db, put_db, ret. cbn [mongo oid_counter generate_calls coll].
  cbn [ObjectId]. rewrite Hu. unfold ret, update_one.
  cbn [mongo oid_counter generate_calls coll set_coll db_users py_str].
  subst recipe_data. subst fresh stored db1. unfold put_db.
  by destruct (update_first _ _ (db_users (mongo w))).
Qed.

(** X10: favoriting a recipe that carries no identifier [ObjectId] accepts
    (and no ["_id"] of its own) stores a copy of it in [recipes] under a new
    identifier, without its ["id"] and with its ["instructions"] moved to
    ["steps"], every other field as sent; the answer carries the new
    identifier and the caller's favorites receive it. *)
Theorem add_favorite_stores_adhoc_recipe (sv : services) (current_user_id uid : string)
    (recipe_data : doc) (w : world) (favorites : list pyval) :
  parse_oid current_user_id = Some uid ->
  recipe_data <> [] ->
  ObjectId_is_valid (dict_get_or recipe_data "id" PNone) = false ->
  dict_get recipe_data "_id" = None ->
  favorites_of sv (mongo w) uid = Some favorites ->
  let fresh := oid_hex (oid_counter w) in
  exists w' stored,
    add_favorite sv current_user_id (PDict recipe_data) w
    = (Ok (jsonify (PDict [("message", PStr "Recipe added to favorites");
                           ("recipe_id", PStr fresh)])), w')
    /\ db_recipes (mongo w') = db_recipes (mongo w) ++ [("_id", POid fresh) :: stored]
    /\ favorites_of sv (mongo w') uid
       = Some (if existsb (pyval_eqb (PStr fresh)) favorites
               then favorites else favorites ++ [PStr fresh])
    /\ dict_get stored "id" = None
    /\ dict_get stored "instructions" = None
    /\ dict_get stored "steps"
       = match dict_get recipe_data "instructions" with
         | Some v => Some v
         | None => dict_get recipe_data "steps"
         end
    /\ forall k, k <> "id" -> k <> "instructions" -> k <> "steps" ->
         dict_get stored k = dict_get recipe_data k.
Proof.
  intros Hu Hne Hid Hnoid Hfav fresh.
  unfold favorites_of, user_of, find in Hfav. cbn [coll] in Hfav.
  destruct (head (List.filter _ (db_users (mongo w)))) as [u|] eqn:Hhead; [|discriminate].
  destruct (dict_get u "favorites") as [[| | | |l| |]|] eqn:Hl; try discriminate.
  inversion Hfav; subst l.
  destruct (add_to_set_list (PStr fresh) u favorites Hl) as (u' & Hadd & Hid' & Hfav' & _).
  assert (doc_matches sv [("_id", POid uid)] u' = true) as Hp.
  { rewrite (matches_id sv), Hid', <- (matches_id sv).
    apply head_Some_elem_of, list_elem_of_In, List.filter_In in Hhead. tauto. }
  destruct (update_first_head _ _ _ _ _ Hhead Hadd Hp) as (l' & Hupd & Hhead' & _).
  destruct (adhoc_record_fields recipe_data) as (H1 & H2 & H3 & H4).
  eexists _, (adhoc_record recipe_data).
  split; [|split; [|split; [|by repeat split]]].
  - rewrite (add_favorite_adhoc _ _ _ _ _ Hu Hne Hid Hnoid). fold fresh.
    rewrite Hupd. reflexivity.
  - by destruct (mongo w).
  - unfold favorites_of, user_of, find. cbn [mongo coll set_coll db_users].
    by rewrite Hhead', Hfav'.
Qed.

Lemma add_favorite_stores_adhoc_recipe_witness :
  exists w' stored,
    add_favorite prose_services alice_id pesto_request alice_world
    = (Ok (jsonify (PDict [("message", PStr "Recipe added to favorites");
                           ("recipe_id", PStr pesto_id)])), w')
    /\ db_recipes (mongo w') = db_recipes (mongo alice_world) ++ [("_id", POid pesto_id) :: stored]
    /\ favorites_of prose_services (mongo w') alice_id = Some [PStr pesto_id]
    /\ dict_get stored "id" = None
    /\ dict_get stored "instructions" = None
    /\ dict_get stored "steps" = Some (PList [PStr "Blend."])
    /\ forall k, k <> "id" -> k <> "instructions" -> k <> "steps" ->
         dict_get stored k
         = dict_get [("title", PStr "Pesto"); ("instructions", PList [PStr "Blend."])] k.
Proof.
  apply (add_favorite_stores_adhoc_recipe prose_services alice_id alice_id
           [("title", PStr "Pesto"); ("instructions", PList [PStr "Blend."])]
           alice_world []); done.
Defined.

(** ** Listing the favorites *)

Lemma ObjectId_favorite (v : pyval) (oid : string) (w : world) :
  favorite_oid v = Ok oid -> ObjectId v w = (Ok (POid oid), w).
Proof.
  destruct v as [| | |s| | |h]; try discriminate; simpl.
  - destruct (parse_oid s) as [o|]; [|discriminate]. by intros [= ->].
  - by intros [= ->].
Qed.

Lemma match_has_id (sv : services) (db : database) (c : collection) (oid : string)
    (r : doc) :
  head (find sv db c [("_id", POid oid)]) = Some r ->
  exists dv, dict_get r "_id" = Some dv.
Proof.
  intros Hhead. unfold find in Hhead.
  apply head_Some_elem_of, list_elem_of_In, List.filter_In in Hhead as [_ Hm].
  rewrite matches_id in Hm. destruct (dict_get r "_id") as [dv|]; [by exists dv|done].
Qed.

Lemma lookup_favorite_resolves (sv : services) (v : pyval) (oid : string) (w : world) :
  favorite_oid v = Ok oid ->
  lookup_favorite sv v w
  = (Ok (with_text_id <$> resolve_favorite sv (mongo w) oid), w).
Proof.
  intros Hv. unfold lookup_favorite, bind, resolve_favorite.
  rewrite (ObjectId_favorite _ _ _ Hv). unfold find_one at 1.
  destruct (head (find sv (mongo w) recipes [("_id", POid oid)])) as [[|kv r]|] eqn:Hr.
  - rewrite (ObjectId_favorite _ _ _ Hv). unfold find_one.
    destruct (head (find sv (mongo w) StoredRecipes [("_id", POid oid)]))
      as [[|kv r]|] eqn:Hs; try done.
    destruct (match_has_id _ _ _ _ _ Hs) as [dv Hdv].
    unfold ret, lift, py_getitem, with_text_id, dict_get_or.
    cbn [fmap option_fmap option_map]. by rewrite !Hdv.
  - destruct (match_has_id _ _ _ _ _ Hr) as [dv Hdv].
    unfold ret, lift, py_getitem, with_text_id, dict_get_or.
    cbn [fmap option_fmap option_map]. by rewrite !Hdv.
  - rewrite (ObjectId_favorite _ _ _ Hv). unfold find_one.
    destruct (head (find sv (mongo w) StoredRecipes [("_id", POid oid)]))
      as [[|kv r]|] eqn:Hs; try done.
    destruct (match_has_id _ _ _ _ _ Hs) as [dv Hdv].
    unfold ret, lift, py_getitem, with_text_id, dict_get_or.
    cbn [fmap option_fmap option_map]. by rewrite !Hdv.
Qed.

Lemma lookups_resolve (sv : services) (w : world) (favorites : list pyval)
    (oids : list string) :
  mapM favorite_oid favorites = Ok oids ->
  forM (lookup_favorite sv) favorites w
  = (Ok (map (fun oid => with_text_id <$> resolve_favorite sv (mongo w) oid) oids), w).
Proof.
  revert oids. induction favorites as [|v l IH]; intros oids H.
  - simpl in H. by inversion H.
  - apply mapM_cons_inv in H as (o & os & -> & Hv & Hl).
    cbn [forM]. unfold bind. rewrite (lookup_favorite_resolves _ _ _ _ Hv), (IH os Hl).
    reflexivity.
Qed.

Lemma lookups_stop (sv : services) (w : world) (pre post : list pyval) (bad : string)
    (oids : list string) :
  mapM favorite_oid pre = Ok oids ->
  parse_oid bad = None ->
  forM (lookup_favorite sv) (pre ++ PStr bad :: post) w = (Raise InvalidId, w).
Proof.
  revert oids. induction pre as [|v l IH]; intros oids H Hbad.
  - cbn [app forM]. unfold bind, lookup_favorite, bind. cbn [ObjectId]. by rewrite Hbad.
  - apply mapM_cons_inv in H as (o & os & -> & Hv & Hl).
    rewrite <- app_comm_cons. cbn [forM]. unfold bind.
    by rewrite (lookup_favorite_resolves _ _ _ _ Hv), (IH os Hl Hbad).
Qed.

Lemma omap_id_resolved {A B} (g : A -> B) (r : string -> option A) (oids : list string) :
  omap id (map (fun oid => g <$> r oid) oids) = g <$> omap r oids.
Proof.
  induction oids as [|o l IH]; [done|].
  change (omap id (map (fun oid => g <$> r oid) (o :: l)))
    with (match g <$> r o with
          | Some y => y :: omap id (map (fun oid => g <$> r oid) l)
          | None => omap id (map (fun oid => g <$> r oid) l)
          end).
  change (omap r (o :: l))
    with (match r o with Some y => y :: omap r l | None => omap r l end).
  rewrite IH. by destruct (r o).
Qed.

Lemma get_favorites_run (sv : services) (current_user_id uid : string) (w : world)
    (favorites : list pyval) :
  parse_oid current_user_id = Some uid ->
  favorites_of sv (mongo w) uid = Some favorites ->
  get_favorites sv current_user_id w
  = match forM (lookup_favorite sv) favorites w with
    | (Ok found, w') =>
        (match mapM format_favorite (omap id found) with
         | Ok shown => Ok (jsonify (PList shown))
         | Raise e => Raise e
         end, w')
    | (Raise e, w') => (Raise e, w')
    end.
Proof.
  intros Hu Hfav. unfold favorites_of, user_of in Hfav.
  unfold get_favorites, bind. cbn [ObjectId]. rewrite Hu. unfold ret, find_one.
  destruct (head (find sv (mongo w) users [("_id", POid uid)])) as [u|]; [|discriminate].
  unfold lift, dict_get_or.
  destruct (dict_get u "favorites") as [[| | | |l| |]|]; try discriminate.
  inversion Hfav; subst l. cbn [py_iter].
  destruct (forM (lookup_favorite sv) favorites w) as [[found|e] w']; [|done].
  by destruct (mapM format_favorite (omap id found)).
Qed.

(** X11: [get_favorites] answers with one normalized record per favorite
    that resolves, in the order of the favorites, taking the record from
    [recipes] before [StoredRecipes]; a favorite that resolves to nothing
    is skipped without an error; the world is left as it was. *)
Theorem get_favorites_lists_resolved (sv : services) (current_user_id uid : string)
    (w : world) (favorites : list pyval) (oids : list string) :
  parse_oid current_user_id = Some uid ->
  favorites_of sv (mongo w) uid = Some favorites ->
  mapM favorite_oid favorites = Ok oids ->
  get_favorites sv current_user_id w
  = (match mapM format_favorite
             (with_text_id <$> omap (resolve_favorite sv (mongo w)) oids) with
     | Ok shown => Ok (jsonify (PList shown))
     | Raise e => Raise e
     end, w).
Proof.
  intros Hu Hfav Hoids.
  rewrite (get_favorites_run _ _ _ _ _ Hu Hfav), (lookups_resolve _ _ _ _ Hoids).
  by rewrite omap_id_resolved.
Qed.

Lemma get_favorites_lists_resolved_witness :
  get_favorites prose_services alice_id
    (add_favorite prose_services alice_id
       (PDict [("id", PStr "65000000000000000000ffff")]) pesto_world).2
  = (Ok (jsonify (PList [
       PDict [("id", PStr pesto_id); ("title", PStr "Pesto");
              ("description", PNone); ("ingredients", PNone);
              ("instructions", PList [PStr "Blend."]); ("cookingTime", PNone);
              ("difficulty", PNone);
              ("nutritionalInfo", PStr "Calories: N/A, Protein: N/Ag");
              ("servings", PStr "Serves None")]])),
     (add_favorite prose_services alice_id
        (PDict [("id", PStr "65000000000000000000ffff")]) pesto_world).2).
Proof.
  rewrite (get_favorites_lists_resolved prose_services alice_id alice_id _
             [PStr pesto_id; PStr "65000000000000000000ffff"]
             [pesto_id; "65000000000000000000ffff"]); reflexivity.
Defined.

(** X12: one favorite that [ObjectId] rejects breaks the listing: when
    the favorites before it are readable, [get_favorites] raises
    [InvalidId] and returns nothing, whatever follows. *)
Theorem get_favorites_fails_on_unreadable_favorite (sv : services)
    (current_user_id uid : string) (w : world) (pre post : list pyval) (bad : string)
    (oids : list string) :
  parse_oid current_user_id = Some uid ->
  favorites_of sv (mongo w) uid = Some (pre ++ PStr bad :: post) ->
  mapM favorite_oid pre = Ok oids ->
  parse_oid bad = None ->
  get_favorites sv current_user_id w = (Raise InvalidId, w).
Proof.
  intros Hu Hfav Hpre Hbad.
  by rewrite (get_favorites_run _ _ _ _ _ Hu Hfav), (lookups_stop _ _ _ _ _ _ Hpre Hbad).
Qed.

Lemma get_favorites_fails_on_unreadable_favorite_witness :
  favorites_of prose_services (mongo named_world) alice_id = Some [PStr "my-soup"]
  /\ get_favorites prose_services alice_id named_world = (Raise InvalidId, named_world).
Proof.
  split; [reflexivity|].
  apply (get_favorites_fails_on_unreadable_favorite prose_services alice_id alice_id
           named_world [] [] "my-soup" []); reflexivity.
Defined.

Lemma unreadable_not_among_readable (s : string) (favorites : list pyval)
    (oids : list string) :
  mapM favorite_oid favorites = Ok oids ->
  parse_oid s = None ->
  existsb (pyval_eqb (PStr s)) favorites = false.
Proof.
  revert oids. induction favorites as [|v l IH]; intros oids H Hs; [done|].
  apply mapM_cons_inv in H as (o & os & -> & Hv & Hl).
  cbn [existsb]. rewrite (IH os Hl Hs), orb_false_r.
  destruct (pyval_eqb (PStr s) v) eqn:Heq; [|done].
  apply pyval_eqb_str in Heq as ->. simpl in Hv. by rewrite Hs in Hv.
Qed.

(** X13: an ["_id"] that the client puts into an ad-hoc recipe is taken
    as the identifier of the stored record.  When it is a string
    [ObjectId] rejects, favoriting the recipe succeeds, the string enters
    the caller's favorites, and from then on [get_favorites] raises
    [InvalidId] for that caller. *)
Theorem client_id_spoils_listing (sv : services) (current_user_id uid s : string)
    (recipe_data : doc) (w : world) (favorites : list pyval) (oids : list string) :
  parse_oid current_user_id = Some uid ->
  ObjectId_is_valid (dict_get_or recipe_data "id" PNone) = false ->
  dict_get recipe_data "_id" = Some (PStr s) ->
  parse_oid s = None ->
  Forall (fun r => dict_get r "_id" <> Some (PStr s)) (db_recipes (mongo w)) ->
  favorites_of sv (mongo w) uid = Some favorites ->
  mapM favorite_oid favorites = Ok oids ->
  exists w',
    add_favorite sv current_user_id (PDict recipe_data) w
    = (Ok (jsonify (PDict [("message", PStr "Recipe added to favorites");
                           ("recipe_id", PStr s)])), w')
    /\ db_recipes (mongo w') = db_recipes (mongo w) ++ [adhoc_record recipe_data]
    /\ favorites_of sv (mongo w') uid = Some (favorites ++ [PStr s])
    /\ get_favorites sv current_user_id w' = (Raise InvalidId, w').
Proof.
  intros Hu Hid Hcid Hs Hnew Hfav Hoids.
  pose proof Hfav as Hfav0.
  unfold favorites_of, user_of, find in Hfav. cbn [coll] in Hfav.
  destruct (head (List.filter _ (db_users (mongo w)))) as [u|] eqn:Hhead; [|discriminate].
  destruct (dict_get u "favorites") as [[| | | |l| |]|] eqn:Hl; try discriminate.
  inversion Hfav; subst l.
  destruct (add_to_set_list (PStr s) u favorites Hl) as (u' & Hadd & Hid' & Hfav' & _).
  rewrite (unreadable_not_among_readable _ _ _ Hoids Hs) in Hfav'.
  assert (doc_matches sv [("_id", POid uid)] u' = true) as Hp.
  { rewrite (matches_id sv), Hid', <- (matches_id sv).
    apply head_Some_elem_of, list_elem_of_In, List.filter_In in Hhead. tauto. }
  destruct (update_first_head _ _ _ _ _ Hhead Hadd Hp) as (l' & Hupd & Hhead' & _).
  destruct (adhoc_record_fields recipe_data) as (_ & _ & _ & Hother).
  assert (existsb (fun d' => match dict_get d' "_id" with
                             | Some j => pyval_eqb (PStr s) j
                             | None => false
                             end) (db_recipes (mongo w)) = false) as Hfree.
  { apply not_true_is_false. intros Hex. apply existsb_exists in Hex as (r & Hin & Hr).
    rewrite Forall_forall in Hnew. apply (Hnew r); [by apply list_elem_of_In|].
    destruct (dict_get r "_id") as [j|]; [|done]. by apply pyval_eqb_str in Hr as ->. }
  set (w' := {| mongo := set_coll (set_coll (mongo w) recipes
                                     (db_recipes (mongo w) ++ [adhoc_record recipe_data]))
                           users l';
                oid_counter := oid_counter w; generate_calls := generate_calls w |}).
  assert (favorites_of sv (mongo w') uid = Some (favorites ++ [PStr s])) as Hfavs'.
  { unfold favorites_of, user_of, find. cbn [w' mongo coll set_coll db_users].
    by rewrite Hhead', Hfav'. }
  exists w'. split; [|split; [by destruct (mongo w)|split; [done|]]].
  - unfold add_favorite.
    destruct recipe_data as [|kv rest] eqn:Hd; [discriminate|]. rewrite <- Hd in *.
    assert (truthy (PDict recipe_data) = true) as -> by (by rewrite Hd).
    cbn [negb]. unfold bind, lift, py_get. rewrite Hid. cbn [negb].
    fold (adhoc_record recipe_data). unfold insert_one.
    rewrite (Hother "_id") by done. rewrite Hcid. cbn [coll]. rewrite Hfree.
    unfold bind, put_db, ret. cbn [mongo oid_counter generate_calls ObjectId].
    rewrite Hu. unfold ret, update_one, put_db.
    cbn [mongo oid_counter generate_calls coll set_coll db_users py_str].
    rewrite Hupd. subst recipe_data. reflexivity.
  - by rewrite (get_favorites_run _ _ _ _ _ Hu Hfavs'),
         (lookups_stop _ _ _ _ _ _ Hoids Hs).
Qed.

Lemma client_id_spoils_listing_witness :
  exists w',
    add_favorite prose_services alice_id (PDict named_request) alice_world
    = (Ok (jsonify (PDict [("message", PStr "Recipe added to favorites");
                           ("recipe_id", PStr "my-soup")])), w')
    /\ db_recipes (mongo w') = db_recipes (mongo alice_world) ++ [adhoc_record named_request]
    /\ favorites_of prose_services (mongo w') alice_id = Some ([] ++ [PStr "my-soup"])
    /\ get_favorites prose_services alice_id w' = (Raise InvalidId, w').
Proof.
  apply (client_id_spoils_listing prose_services alice_id alice_id "my-soup"
           named_request alice_world [] []); try reflexivity.
  constructor.
Defined.

(** X14: for a recipe identifier [ObjectId] rejects, [remove_favorite]
    still takes the identifier out of the caller's favorites first; when no
    account holds it afterwards, building the identifier for the deletion
    raises [InvalidId], so the caller gets an error although the favorite
    is gone, and nothing is deleted from [recipes]. *)
Theorem remove_favorite_rejects_after_pull (sv : services)
    (current_user_id recipe_id uid : string) (data : doc) (w : world)
    (favorites : list pyval) :
  parse_oid current_user_id = Some uid ->
  parse_oid recipe_id = None ->
  dict_get data "recipe_id" = Some (PStr recipe_id) ->
  favorites_of sv (mongo w) uid = Some favorites ->
  exists w',
    (remove_favorite sv current_user_id (PDict data) w).2 = w'
    /\ favorites_of sv (mongo w') uid
       = Some (List.filter (fun x => negb (pyval_eqb x (PStr recipe_id))) favorites)
    /\ db_recipes (mongo w') = db_recipes (mongo w)
    /\ (remove_favorite sv current_user_id (PDict data) w).1
       = if referenced sv (mongo w') recipe_id
         then Ok (jsonify (PDict [("message", PStr "Recipe removed from favorites")]))
         else Raise InvalidId.
Proof.
  intros Hu Hr Hid Hfav.
  unfold favorites_of, user_of, find in Hfav. cbn [coll] in Hfav.
  destruct (head (List.filter _ (db_users (mongo w)))) as [u|] eqn:Hhead; [|discriminate].
  destruct (dict_get u "favorites") as [[| | | |l| |]|] eqn:Hl; try discriminate.
  inversion Hfav; subst l.
  destruct (pull_list (PStr recipe_id) u favorites Hl) as (u' & Hpull & Hid' & Hfav').
  assert (doc_matches sv [("_id", POid uid)] u' = true) as Hp.
  { rewrite (matches_id sv), Hid', <- (matches_id sv).
    apply head_Some_elem_of, list_elem_of_In, List.filter_In in Hhead. tauto. }
  destruct (update_first_head _ _ _ _ _ Hhead Hpull Hp) as (l' & Hupd & Hhead' & _).
  assert (remove_favorite sv current_user_id (PDict data) w
          = (if referenced sv (set_coll (mongo w) users l') recipe_id
             then Ok (jsonify (PDict [("message", PStr "Recipe removed from favorites")]))
             else Raise InvalidId,
             {| mongo := set_coll (mongo w) users l'; oid_counter := oid_counter w;
                generate_calls := generate_calls w |})) as Hrun.
  { unfold remove_favorite, lacks.
    destruct data as [|kv rest] eqn:Hdata; [discriminate|]. rewrite <- Hdata in *.
    assert (truthy (PDict data) = true) as -> by (by rewrite Hdata).
    unfold bind, lift, py_contains, py_getitem, dict_has, rbind. rewrite Hid.
    cbn [negb ObjectId]. rewrite Hu. unfold ret, update_one. cbn [coll]. rewrite Hupd.
    unfold put_db, find_one, find, referenced. cbn [mongo coll db_users set_coll].
    rewrite existsb_filter.
    destruct (List.filter (doc_matches sv [("favorites", PStr recipe_id)]) l')
      as [|d others] eqn:Hf; cbn [head ObjectId].
    - rewrite Hr. by cbn.
    - assert (doc_matches sv [("favorites", PStr recipe_id)] d = true) as Hd.
      { assert (In d (List.filter (doc_matches sv [("favorites", PStr recipe_id)]) l'))
          as Hin by (rewrite Hf; by left).
        apply List.filter_In in Hin. tauto. }
      destruct d as [|kv' d]; [discriminate|]. by cbn. }
  rewrite Hrun. eexists. split; [reflexivity|]. cbn [fst snd mongo].
  split; [|split; [by destruct (mongo w)|done]].
  unfold favorites_of, user_of, find. cbn [coll set_coll db_users].
  by rewrite Hhead', Hfav'.
Qed.

Lemma remove_favorite_rejects_after_pull_witness :
  exists w',
    (remove_favorite prose_services alice_id (PDict [("recipe_id", PStr "my-soup")])
       named_world).2 = w'
    /\ favorites_of prose_services (mongo w') alice_id
       = Some (List.filter (fun x => negb (pyval_eqb x (PStr "my-soup"))) [PStr "my-soup"])
    /\ db_recipes (mongo w') = db_recipes (mongo named_world)
    /\ (remove_favorite prose_services alice_id (PDict [("recipe_id", PStr "my-soup")])
          named_world).1
       = if referenced prose_services (mongo w') "my-soup"
         then Ok (jsonify (PDict [("message", PStr "Recipe removed from favorites")]))
         else Raise InvalidId.
Proof.
  apply (remove_favorite_rejects_after_pull prose_services alice_id "my-soup" alice_id
           [("recipe_id", PStr "my-soup")] named_world [PStr "my-soup"]); reflexivity.
Defined.

(** The named recipe after alice has unfavorited it: her favorites are
    empty, the answer was an error, and the record is still stored. *)
Example named_recipe_is_never_collected :
  let out := remove_favorite prose_services alice_id
               (PDict [("recipe_id", PStr "my-soup")]) named_world in
  out.1 = Raise InvalidId
  /\ favorites_of prose_services (mongo out.2) alice_id = Some []
  /\ db_recipes (mongo out.2) = [named_request].
Proof. vm_compute. repeat split. Qed.

Lemma mapM_app {A B} (f : A -> res B) (l1 l2 : list A) (ys1 ys2 : list B) :
  mapM f l1 = Ok ys1 -> mapM f l2 = Ok ys2 -> mapM f (l1 ++ l2) = Ok (ys1 ++ ys2).
Proof.
  revert ys1. induction l1 as [|x l1 IH]; intros ys1 H1 H2.
  - simpl in H1. by inversion H1.
  - apply mapM_cons_inv in H1 as (y & ys' & -> & Hx & Hl).
    simpl. by rewrite Hx, (IH ys' Hl H2).
Qed.

Lemma steps_win_after_storing (recipe_data : doc) (oid v : pyval) :
  dict_get recipe_data "instructions" = Some v -> truthy v = true ->
  steps_or_instructions (with_text_id (("_id", oid) :: adhoc_record recipe_data)) = v.
Proof.
  intros Hv Ht. destruct (adhoc_record_fields recipe_data) as (_ & _ & Hsteps & _).
  rewrite Hv in Hsteps.
  unfold steps_or_instructions, with_text_id, dict_get_or, py_or.
  cbn [dict_get dict_set String.eqb Ascii.eqb Bool.eqb]. by rewrite Hsteps, Ht.
Qed.

(** X15: the round trip of an ad-hoc recipe.  After a caller whose
    favorites are all readable has favorited a recipe without identifier,
    and the identifier drawn for it was in use neither in [recipes] nor in
    the favorites, the listing of the caller's favorites is the listing of
    the earlier favorites followed by the stored recipe; and the normalized
    instructions of that recipe are the ["instructions"] that were sent,
    when these are not empty. *)
Theorem adhoc_recipe_round_trip (sv : services) (current_user_id uid : string)
    (recipe_data : doc) (w : world) (favorites : list pyval) (oids : list string) :
  parse_oid current_user_id = Some uid ->
  recipe_data <> [] ->
  ObjectId_is_valid (dict_get_or recipe_data "id" PNone) = false ->
  dict_get recipe_data "_id" = None ->
  favorites_of sv (mongo w) uid = Some favorites ->
  mapM favorite_oid favorites = Ok oids ->
  let fresh := oid_hex (oid_counter w) in
  let stored := ("_id", POid fresh) :: adhoc_record recipe_data in
  find sv (mongo w) recipes [("_id", POid fresh)] = [] ->
  existsb (pyval_eqb (PStr fresh)) favorites = false ->
  exists w',
    (add_favorite sv current_user_id (PDict recipe_data) w).2 = w'
    /\ resolve_favorite sv (mongo w') fresh = Some stored
    /\ get_favorites sv current_user_id w'
       = (match mapM format_favorite
                  (with_text_id <$> (omap (resolve_favorite sv (mongo w')) oids ++ [stored])) with
          | Ok shown => Ok (jsonify (PList shown))
          | Raise e => Raise e
          end, w')
    /\ dict_get (with_text_id stored) "_id" = Some (PStr fresh)
    /\ forall v, dict_get recipe_data "instructions" = Some v -> truthy v = true ->
         steps_or_instructions (with_text_id stored) = v.
Proof.
  intros Hu Hne Hid Hnoid Hfav Hoids fresh stored Hunused Hnew.
  pose proof Hfav as Hfav0.
  unfold favorites_of, user_of, find in Hfav. cbn [coll] in Hfav.
  destruct (head (List.filter _ (db_users (mongo w)))) as [u|] eqn:Hhead; [|discriminate].
  destruct (dict_get u "favorites") as [[| | | |l| |]|] eqn:Hl; try discriminate.
  inversion Hfav; subst l.
  destruct (add_to_set_list (PStr fresh) u favorites Hl) as (u' & Hadd & Hid' & Hfav' & _).
  rewrite Hnew in Hfav'.
  assert (doc_matches sv [("_id", POid uid)] u' = true) as Hp.
  { rewrite (matches_id sv), Hid', <- (matches_id sv).
    apply head_Some_elem_of, list_elem_of_In, List.filter_In in Hhead. tauto. }
  destruct (update_first_head _ _ _ _ _ Hhead Hadd Hp) as (l' & Hupd & Hhead' & _).
  rewrite (add_favorite_adhoc _ _ _ _ _ Hu Hne Hid Hnoid). fold fresh. rewrite Hupd.
  cbn zeta. fold stored. eexists. split; [reflexivity|]. cbn [snd].
  set (w' := {| mongo := set_coll (set_coll (mongo w) recipes
                                     (db_recipes (mongo w) ++ [stored])) users l';
                oid_counter := S (oid_counter w);
                generate_calls := generate_calls w |}).
  assert (resolve_favorite sv (mongo w') fresh = Some stored) as Hres.
  { unfold resolve_favorite, find. cbn [w' mongo coll set_coll db_recipes].
    unfold find in Hunused. cbn [coll] in Hunused.
    rewrite List.filter_app, Hunused. cbn [app List.filter].
    rewrite (matches_id sv). cbn [stored dict_get String.eqb Ascii.eqb Bool.eqb].
    unfold field_matches. cbn [pyval_eqb]. by rewrite String.eqb_refl. }
  assert (favorites_of sv (mongo w') uid = Some (favorites ++ [PStr fresh])) as Hfavs'.
  { unfold favorites_of, user_of, find. cbn [w' mongo coll set_coll db_users].
    by rewrite Hhead', Hfav'. }
  assert (mapM favorite_oid (favorites ++ [PStr fresh]) = Ok (oids ++ [fresh])) as Hoids'.
  { apply (mapM_app _ _ _ _ _ Hoids). cbn [mapM favorite_oid]. unfold fresh.
    by rewrite parse_oid_fresh. }
  split; [done|]. split; [|split].
  - rewrite (get_favorites_run _ _ _ _ _ Hu Hfavs'), (lookups_resolve _ _ _ _ Hoids').
    rewrite omap_id_resolved, omap_app. cbn [omap list_omap]. by rewrite Hres.
  - unfold with_text_id, stored. cbn [dict_set dict_get String.eqb Ascii.eqb Bool.eqb].
    reflexivity.
  - intros v Hv Ht. by apply steps_win_after_storing.
Qed.

Lemma adhoc_recipe_round_trip_witness :
  exists w',
    (add_favorite prose_services alice_id pesto_request alice_world).2 = w'
    /\ resolve_favorite prose_services (mongo w') pesto_id
       = Some (("_id", POid pesto_id)
               :: adhoc_record [("title", PStr "Pesto"); ("instructions", PList [PStr "Blend."])])
    /\ get_favorites prose_services alice_id w'
       = (match mapM format_favorite
                  (with_text_id
                   <$> (omap (resolve_favorite prose_services (mongo w')) []
                        ++ [("_id", POid pesto_id)
                            :: adhoc_record [("title", PStr "Pesto");
                                             ("instructions", PList [PStr "Blend."])]])) with
          | Ok shown => Ok (jsonify (PList shown))
          | Raise e => Raise e
          end, w')
    /\ dict_get (with_text_id
                   (("_id", POid pesto_id)
                    :: adhoc_record [("title", PStr "Pesto");
                                     ("instructions", PList [PStr "Blend."])])) "_id"
       = Some (PStr pesto_id)
    /\ forall v,
         dict_get [("title", PStr "Pesto"); ("instructions", PList [PStr "Blend."])]
           "instructions" = Some v ->
         truthy v = true ->
         steps_or_instructions
           (with_text_id
              (("_id", POid pesto_id)
               :: adhoc_record [("title", PStr "Pesto");
                                ("instructions", PList [PStr "Blend."])])) = v.
Proof.
  apply (adhoc_recipe_round_trip prose_services alice_id alice_id
           [("title", PStr "Pesto"); ("instructions", PList [PStr "Blend."])]
           alice_world [] []); done.
Defined.

(** ** Logging in *)

Lemma login_run (sv : services) (au : auth_services) (d : doc) (w : world)
    (name p : string) :
  dict_get d "username" = Some (PStr name) ->
  dict_get d "password" = Some (PStr p) ->
  login sv au (PDict d) w
  = (match head (find sv (mongo w) users [("username", PStr name)]) with
     | Some ((_ :: _) as u) =>
         match dict_get u "password" with
         | Some (PStr h) =>
             if check_password_hash au h p then
               match dict_get u "_id" with
               | Some oid =>
                   Ok (jsonify (PDict [("access_token",
                                        PStr (create_access_token au (py_str oid)))]))
               | None => Raise (KeyError "_id")
               end
             else Ok could_not_verify
         | Some _ => Raise AttributeError
         | None => Raise (KeyError "password")
         end
     | _ => Ok could_not_verify
     end, w).
Proof.
  intros Hn Hp. unfold login, bind, lift, py_getitem, find_one. rewrite Hn.
  destruct (head (find sv (mongo w) users [("username", PStr name)])) as [[|kv u]|];
    try done.
  destruct (dict_get (kv :: u) "password") as [pw|]; [|done]. rewrite Hp.
  destruct pw; try done. cbn [py_check_password_hash].
  destruct (check_password_hash au s p); [|done].
  by destruct (dict_get (kv :: u) "_id").
Qed.

Lemma register_run (sv : services) (d : doc) (w : world) (name p : string) :
  dict_get d "username" = Some (PStr name) ->
  dict_get d "password" = Some (PStr p) ->
  register sv (PDict d) w
  = (Ok (jsonify (PDict [("message", PStr "New user created!")])),
     {| mongo :=
          set_coll (mongo w) users
            (db_users (mongo w)
             ++ [[("_id", POid (oid_hex (oid_counter w)));
                  ("username", PStr name);
                  ("password", PStr (generate_password_hash sv p));
                  ("favorites", PList [])]]);
        oid_counter := S (oid_counter w);
        generate_calls := generate_calls w |}).
Proof.
  intros Hn Hp. unfold register, bind, lift, py_getitem. rewrite Hp, Hn. reflexivity.
Qed.

Lemma new_account_matches (sv : services) (name : string) (oid password : pyval) :
  doc_matches sv [("username", PStr name)]
    [("_id", oid); ("username", PStr name); ("password", password); ("favorites", PList [])]
  = true.
Proof.
  unfold doc_matches, cond_matches, field_matches.
  cbn [forallb dict_get String.eqb Ascii.eqb Bool.eqb pyval_eqb].
  by rewrite String.eqb_refl.
Qed.

(** X16: [login] decides on the first account that has the username, and
    on no other: without such an account, or when the password does not
    verify against that account's hash, the answer is 401; otherwise it is
    a token for that account's identifier.  The world is left as it was. *)
Theorem login_uses_first_account (sv : services) (au : auth_services) (d : doc)
    (w : world) (name p : string) :
  dict_get d "username" = Some (PStr name) ->
  dict_get d "password" = Some (PStr p) ->
  (find sv (mongo w) users [("username", PStr name)] = [] ->
   login sv au (PDict d) w = (Ok could_not_verify, w))
  /\ forall u others h oid,
       find sv (mongo w) users [("username", PStr name)] = u :: others ->
       dict_get u "password" = Some (PStr h) ->
       dict_get u "_id" = Some oid ->
       login sv au (PDict d) w
       = (Ok (if check_password_hash au h p
              then jsonify (PDict [("access_token",
                                    PStr (create_access_token au (py_str oid)))])
              else could_not_verify), w).
Proof.
  intros Hn Hp. rewrite (login_run _ _ _ _ _ _ Hn Hp). split.
  - by intros ->.
  - intros u others h oid -> Hh Hoid. cbn [head].
    destruct u as [|kv u]; [discriminate|]. rewrite Hh, Hoid.
    by destruct (check_password_hash au h p).
Qed.

Lemma login_uses_first_account_witness :
  login prose_services sample_auth alice_request alice_world
  = (Ok (jsonify (PDict [("access_token", PStr ("token-for-" +:+ alice_id))])),
     alice_world)
  /\ login prose_services sample_auth alice_request stocked_world
     = (Ok could_not_verify, stocked_world).
Proof.
  pose proof (login_uses_first_account prose_services sample_auth
                [("username", PStr "alice"); ("password", PStr "wonderland")])
    as Hlogin.
  split.
  - destruct (Hlogin alice_world "alice" "wonderland" eq_refl eq_refl) as [_ Hfirst].
    etransitivity; [eapply Hfirst; reflexivity|reflexivity].
  - destruct (Hlogin stocked_world "alice" "wonderland" eq_refl eq_refl) as [Hnone _].
    apply Hnone. reflexivity.
Defined.

(** X17: registering under a username that no account has, and then
    logging in with the same username and password, yields a token for the
    identifier of the new account, provided the password verifies against
    the hash that was stored. *)
Theorem register_then_login (sv : services) (au : auth_services) (d : doc) (w : world)
    (name p : string) :
  dict_get d "username" = Some (PStr name) ->
  dict_get d "password" = Some (PStr p) ->
  find sv (mongo w) users [("username", PStr name)] = [] ->
  check_password_hash au (generate_password_hash sv p) p = true ->
  login sv au (PDict d) (register sv (PDict d) w).2
  = (Ok (jsonify (PDict [("access_token",
                          PStr (create_access_token au (oid_hex (oid_counter w))))])),
     (register sv (PDict d) w).2).
Proof.
  intros Hn Hp Hfree Hcheck.
  rewrite (register_run _ _ _ _ _ Hn Hp), (login_run _ _ _ _ _ _ Hn Hp).
  unfold find in *. cbn [snd mongo coll set_coll db_users] in *.
  rewrite List.filter_app, Hfree. cbn [app List.filter].
  rewrite new_account_matches. cbn [head dict_get String.eqb Ascii.eqb Bool.eqb].
  by rewrite Hcheck.
Qed.

Lemma register_then_login_witness :
  login prose_services sample_auth alice_request
    (register prose_services alice_request stocked_world).2
  = (Ok (jsonify (PDict [("access_token",
                          PStr (create_access_token sample_auth
                                  (oid_hex (oid_counter stocked_world))))])),
     (register prose_services alice_request stocked_world).2).
Proof.
  apply (register_then_login prose_services sample_auth
           [("username", PStr "alice"); ("password", PStr "wonderland")]
           stocked_world "alice" "wonderland"); reflexivity.
Defined.

(** X18: an account registered under a username that is taken can never
    be logged into: after the registration, [login] with the new
    credentials is still decided by the first account of that name, so it
    is refused unless the new password verifies against the old hash, and
    then the token is for the old account. *)
Theorem second_registration_is_shadowed (sv : services) (au : auth_services) (d : doc)
    (w : world) (name p h : string) (u : doc) (others : list doc) (oid : pyval) :
  dict_get d "username" = Some (PStr name) ->
  dict_get d "password" = Some (PStr p) ->
  find sv (mongo w) users [("username", PStr name)] = u :: others ->
  dict_get u "password" = Some (PStr h) ->
  dict_get u "_id" = Some oid ->
  (register sv (PDict d) w).1 = Ok (jsonify (PDict [("message", PStr "New user created!")]))
  /\ login sv au (PDict d) (register sv (PDict d) w).2
     = (Ok (if check_password_hash au h p
            then jsonify (PDict [("access_token",
                                  PStr (create_access_token au (py_str oid)))])
            else could_not_verify),
        (register sv (PDict d) w).2).
Proof.
  intros Hn Hp Hfirst Hh Hoid.
  rewrite (register_run _ _ _ _ _ Hn Hp). split; [done|].
  rewrite (login_run _ _ _ _ _ _ Hn Hp).
  unfold find in *. cbn [snd mongo coll set_coll db_users] in *.
  rewrite List.filter_app, Hfirst. cbn [app head].
  destruct u as [|kv u]; [discriminate|]. rewrite Hh, Hoid.
  by destruct (check_password_hash au h p).
Qed.

Lemma second_registration_is_shadowed_witness :
  login prose_services sample_auth
    (PDict [("username", PStr "alice"); ("password", PStr "looking-glass")])
    (register prose_services
       (PDict [("username", PStr "alice"); ("password", PStr "looking-glass")])
       alice_world).2
  = (Ok could_not_verify,
     (register prose_services
        (PDict [("username", PStr "alice"); ("password", PStr "looking-glass")])
        alice_world).2).
Proof.
  etransitivity;
    [eapply (second_registration_is_shadowed prose_services sample_auth
               [("username", PStr "alice"); ("password", PStr "looking-glass")]
               alice_world "alice" "looking-glass"); reflexivity
    |reflexivity].
Defined.

(** ** Recognizing ingredients *)

Lemma lstrip_head (s : string) :
  match lstrip s with
  | EmptyString => True
  | String c _ => is_space c = false
  end.
Proof.
  induction s as [|c s IH]; simpl; [done|].
  destruct (is_space c) eqn:Hc; [done|]. by rewrite Hc.
Qed.

Lemma lstrip_clean (s : string) :
  match s with
  | EmptyString => True
  | String c _ => is_space c = false
  end ->
  lstrip s = s.
Proof. destruct s as [|c s]; simpl; [done|]. by intros ->. Qed.

Lemma string_app_cons (c : ascii) (s t : string) :
  String c s +:+ t = String c (s +:+ t).
Proof. reflexivity. Qed.

Lemma string_app_nil_r (s : string) : s +:+ EmptyString = s.
Proof.
  induction s as [|c s IH]; [done|]. by rewrite string_app_cons, IH.
Qed.

Lemma string_app_assoc (s1 s2 s3 : string) :
  (s1 +:+ s2) +:+ s3 = s1 +:+ (s2 +:+ s3).
Proof.
  induction s1 as [|c s1 IH]; [done|]. by rewrite !string_app_cons, IH.
Qed.

Lemma string_rev_app (s1 s2 : string) :
  string_rev (s1 +:+ s2) = string_rev s2 +:+ string_rev s1.
Proof.
  induction s1 as [|c s1 IH].
  - cbn [string_rev]. by rewrite string_app_nil_r.
  - rewrite string_app_cons. cbn [string_rev]. by rewrite IH, string_app_assoc.
Qed.

Lemma string_rev_involutive (s : string) : string_rev (string_rev s) = s.
Proof.
  induction s as [|c s IH]; [done|].
  cbn [string_rev]. rewrite string_rev_app, IH. reflexivity.
Qed.

Lemma lstrip_keeps_last (x : string) (c : ascii) :
  is_space c = false ->
  exists y, lstrip (x +:+ String c EmptyString) = y +:+ String c EmptyString.
Proof.
  intros Hc. induction x as [|d x IH].
  - exists EmptyString. change (lstrip (String c EmptyString) = String c EmptyString).
    cbn [lstrip]. by rewrite Hc.
  - rewrite string_app_cons. cbn [lstrip].
    destruct (is_space d); [done|]. by exists (String d x).
Qed.

Lemma rstrip_clean_head (t : string) :
  match t with
  | EmptyString => True
  | String c _ => is_space c = false
  end ->
  match string_rev (lstrip (string_rev t)) with
  | EmptyString => True
  | String c _ => is_space c = false
  end.
Proof.
  destruct t as [|c t]; [done|]. intros Hc. cbn [string_rev].
  destruct (lstrip_keeps_last (string_rev t) c Hc) as [y ->].
  by rewrite string_rev_app.
Qed.

Lemma strip_strip (s : string) : strip (strip s) = strip s.
Proof.
  unfold strip.
  rewrite (lstrip_clean (string_rev (lstrip (string_rev (lstrip s)))))
    by apply rstrip_clean_head, lstrip_head.
  rewrite string_rev_involutive.
  by rewrite (lstrip_clean (lstrip (string_rev (lstrip s)))) by apply lstrip_head.
Qed.

Lemma all_chars_rev (p : ascii -> bool) (s : string) :
  all_chars p (string_rev s) = all_chars p s.
Proof.
  induction s as [|c s IH]; [done|]. cbn [string_rev all_chars].
  rewrite all_chars_app, IH. cbn [all_chars]. rewrite andb_true_r. apply andb_comm.
Qed.

Lemma all_chars_lstrip (p : ascii -> bool) (s : string) :
  all_chars p s = true -> all_chars p (lstrip s) = true.
Proof.
  induction s as [|c s IH]; simpl; [done|]. intros H.
  apply andb_true_iff in H as [Hc Hs].
  destruct (is_space c); [by apply IH|]. simpl. by rewrite Hc, Hs.
Qed.

Lemma all_chars_strip (p : ascii -> bool) (s : string) :
  all_chars p s = true -> all_chars p (strip s) = true.
Proof.
  intros H. unfold strip. rewrite all_chars_rev. apply all_chars_lstrip.
  rewrite all_chars_rev. by apply all_chars_lstrip.
Qed.

Lemma all_chars_split (p : ascii -> bool) (sep : ascii) (s : string) :
  all_chars p s = true ->
  List.Forall (fun piece => all_chars p piece = true) (split_on sep s).
Proof.
  induction s as [|c s IH]; simpl; intros H.
  - by repeat constructor.
  - apply andb_true_iff in H as [Hc Hs]. specialize (IH Hs).
    destruct (Ascii.eqb c sep).
    + by constructor.
    + destruct (split_on sep s) as [|piece pieces].
      * constructor; [|done]. simpl. by rewrite Hc.
      * inversion IH as [|? ? Hpiece Hpieces]; subst.
        constructor; [|done]. simpl. by rewrite Hc, Hpiece.
Qed.

Lemma split_pieces_without_separator (sep : ascii) (s : string) :
  List.Forall (fun piece => all_chars (fun c => negb (Ascii.eqb c sep)) piece = true)
    (split_on sep s).
Proof.
  induction s as [|c s IH]; simpl.
  - by repeat constructor.
  - destruct (Ascii.eqb c sep) eqn:Hc.
    + by constructor.
    + destruct (split_on sep s) as [|piece pieces].
      * constructor; [|done]. simpl. by rewrite Hc.
      * inversion IH as [|? ? Hpiece Hpieces]; subst.
        constructor; [|done]. simpl. by rewrite Hc, Hpiece.
Qed.

Lemma lower_ascii_lower_ascii (c : ascii) : lower_ascii (lower_ascii c) = lower_ascii c.
Proof. destruct c as [[] [] [] [] [] [] [] []]; reflexivity. Qed.

Lemma all_chars_lower (s : string) :
  all_chars (fun c => Ascii.eqb (lower_ascii c) c) (lower s) = true.
Proof.
  induction s as [|c s IH]; simpl; [done|].
  by rewrite lower_ascii_lower_ascii, Ascii.eqb_refl, IH.
Qed.

Lemma lower_fixed (s : string) :
  all_chars (fun c => Ascii.eqb (lower_ascii c) c) s = true -> lower s = s.
Proof.
  induction s as [|c s IH]; simpl; [done|]. intros H.
  apply andb_true_iff in H as [Hc Hs]. apply Ascii.eqb_eq in Hc.
  by rewrite Hc, (IH Hs).
Qed.

(** X19: every ingredient that [recognize_ingredients] returns is a
    non-empty text without surrounding white space, without a comma and,
    as far as ASCII letters go, in lower case. *)
Theorem recognized_ingredients_are_clean (text ing : string) :
  In ing (parse_ingredients (lower (strip text))) ->
  ing <> EmptyString
  /\ strip ing = ing
  /\ lower ing = ing
  /\ all_chars (fun c => negb (Ascii.eqb c ","%char)) ing = true.
Proof.
  unfold parse_ingredients. intros Hin.
  apply List.in_map_iff in Hin as (piece & <- & Hpiece).
  apply List.filter_In in Hpiece as [Hpiece Hkept].
  apply negb_true_iff, String.eqb_neq in Hkept.
  split; [done|]. split; [apply strip_strip|]. split.
  - apply lower_fixed, all_chars_strip.
    pose proof (all_chars_split _ ","%char _ (all_chars_lower (strip text))) as Hall.
    rewrite List.Forall_forall in Hall. by apply Hall.
  - apply all_chars_strip.
    pose proof (split_pieces_without_separator ","%char (lower (strip text))) as Hall.
    rewrite List.Forall_forall in Hall. by apply Hall.
Qed.

Lemma recognized_ingredients_are_clean_witness :
  parse_ingredients (lower (strip "  Tomatoes, ONIONS ,, Chicken Breast
"))
  = ["tomatoes"; "onions"; "chicken breast"]
  /\ strip "onions" = "onions" /\ lower "onions" = "onions".
Proof.
  split; [reflexivity|].
  destruct (recognized_ingredients_are_clean "  Tomatoes, ONIONS ,, Chicken Breast
" "onions") as (_ & Hstrip & Hlower & _); [vm_compute; tauto|].
  by split.
Defined.

Lemma split_without_separator (sep : ascii) (s : string) :
  all_chars (fun c => negb (Ascii.eqb c sep)) s = true -> split_on sep s = [s].
Proof.
  induction s as [|c s IH]; simpl; [done|]. intros H.
  apply andb_true_iff in H as [Hc Hs]. apply negb_true_iff in Hc.
  by rewrite Hc, (IH Hs).
Qed.

(** X20: how [recognize_ingredients] answers.  Without a model the answer
    is 500 whatever the body.  With one, a JSON object as body is always
    answered, with 200, 400 or 500, and never with an exception: 400 when it
    has no ["image"], 500 when the image text holds no comma (a bare base64
    text without the data-URI prefix).  A number as body, however, makes the
    membership test of line 204 raise [TypeError] outside the [try]. *)
Theorem recognize_ingredients_answers (vs : vision_services) :
  (vision_model vs = None ->
   forall data,
     recognize_ingredients vs data
     = Ok (jsonify_status
             (PDict [("error", PStr "Gemini API key not configured on the server.")]) 500))
  /\ (forall d, exists r,
        recognize_ingredients vs (PDict d) = Ok r
        /\ (status r = 200 \/ status r = 400 \/ status r = 500))
  /\ (forall model d,
        vision_model vs = Some model -> dict_get d "image" = None ->
        recognize_ingredients vs (PDict d)
        = Ok (jsonify_status (PDict [("error", PStr "No image data provided.")]) 400))
  /\ (forall model d uri,
        vision_model vs = Some model -> dict_get d "image" = Some (PStr uri) ->
        all_chars (fun c => negb (Ascii.eqb c ","%char)) uri = true ->
        recognize_ingredients vs (PDict d) = Ok failed_to_process)
  /\ (forall model z,
        vision_model vs = Some model -> z <> 0%Z ->
        recognize_ingredients vs (PInt z) = Raise TypeError).
Proof.
  unfold recognize_ingredients. split; [|split; [|split; [|split]]].
  - by intros ->.
  - intros d. destruct (vision_model vs) as [model|]; [|eexists; split; [done|tauto]].
    unfold lacks, py_contains, rbind. destruct d as [|kv d'] eqn:Hd.
    { eexists. split; [reflexivity|]. simpl. tauto. }
    rewrite <- Hd. assert (truthy (PDict d) = true) as -> by (by rewrite Hd).
    destruct (dict_has d "image"); cbn [negb];
      [|eexists; split; [reflexivity|simpl; tauto]].
    eexists. split; [reflexivity|].
    unfold recognize.
    destruct (py_getitem (PDict d) "image") as [[| | |uri| | |]|]; try (simpl; tauto).
    destruct (split_on ","%char uri) as [|x [|b64 rest]]; try (simpl; tauto).
    destruct (decode_image vs b64) as [img|]; [|simpl; tauto].
    destruct (model img) as [text|]; [|simpl; tauto].
    destruct (String.eqb (lower (strip text)) EmptyString); simpl; tauto.
  - intros model d -> Hnone. unfold lacks, py_contains, dict_has, rbind. rewrite Hnone.
    by destruct d.
  - intros model d uri -> Himage Hbare.
    unfold lacks, py_contains, dict_has, rbind. rewrite Himage.
    destruct d as [|kv d'] eqn:Hd; [discriminate|]. rewrite <- Hd in *.
    assert (truthy (PDict d) = true) as -> by (by rewrite Hd). cbn [negb].
    unfold recognize, py_getitem. rewrite Himage.
    by rewrite (split_without_separator _ _ Hbare).
  - intros model z -> Hz. unfold lacks. cbn [truthy].
    by rewrite (proj2 (Z.eqb_neq z 0) Hz).
Qed.

(** A data URI with an image: the ingredients come back as a clean list;
    the same text without the prefix is answered 500. *)
Example recognize_ingredients_sample :
  recognize_ingredients sample_vision
    (PDict [("image", PStr "data:image/png;base64,iVBORw0KGgo=")])
  = Ok (jsonify (PList [PStr "tomatoes"; PStr "onions"]))
  /\ recognize_ingredients sample_vision (PDict [("image", PStr "iVBORw0KGgo=")])
     = Ok failed_to_process.
Proof. split; reflexivity. Qed.

(** ** Searching the web *)




Lemma google_lines_stop (results pre post : list pyval) (bad : pyval)
    (lines : list pyval) (e : exn) :
  mapM google_line pre = Ok lines ->
  google_line bad = Raise e ->
  google_lines results (pre ++ bad :: post) = results ++ lines.
Proof.
  revert results lines. induction pre as [|item pre IH]; intros results lines Hpre Hbad.
  - simpl in Hpre. inversion Hpre; subst. simpl. by rewrite Hbad, app_nil_r.
  - apply mapM_cons_inv in Hpre as (line & lines' & -> & Hitem & Hpre).
    rewrite <- app_comm_cons. cbn [google_lines]. rewrite Hitem.
    rewrite (IH _ _ Hpre Hbad). by rewrite <- app_assoc.
Qed.

(** X22: the two blocks of [search_web] treat a malformed entry
    differently.  One DuckDuckGo result that has no [get] method discards
    the bodies of all DuckDuckGo results; one Google item that has none
    keeps the lines of the items before it and drops the items after
    it. *)
Theorem search_web_malformed_entries (ss : search_services) (query : string)
    (pre post : list pyval) (bad : pyval) (e : exn) :
  (forall bodies,
     ddgs_text ss query = Some (pre ++ bad :: post) ->
     mapM (fun r => py_get r "body" (PStr EmptyString)) pre = Ok bodies ->
     py_get bad "body" (PStr EmptyString) = Raise e ->
     ddgs_bodies ss query = [])
  /\ (forall results lines,
        mapM google_line pre = Ok lines ->
        google_line bad = Raise e ->
        google_lines results (pre ++ bad :: post) = results ++ lines).
Proof.
  split.
  - intros bodies Htext Hpre Hbad. unfold ddgs_bodies. rewrite Htext.
    rewrite (mapM_stops _ _ _ _ _ _ Hpre Hbad). by destruct pre.
  - intros results lines. apply google_lines_stop.
Qed.

(** The sample search: one DuckDuckGo body, then the one Google item that
    precedes the broken one. *)
Example search_web_sample :
  search_web sample_search "soup"
  = [PStr "A soup page."; PStr "Bread: A bread page."].
Proof. reflexivity. Qed.

(** ** Bodies the handlers do not expect *)

Lemma lacks_without_key (d : doc) (key : string) :
  dict_get d key = None -> lacks (PDict d) key = Ok true.
Proof.
  intros Hnone. unfold lacks, py_contains, dict_has, rbind. rewrite Hnone.
  by destruct d.
Qed.

Lemma lacks_falsy (data : pyval) (key : string) :
  truthy data = false -> lacks data key = Ok true.
Proof. intros H. unfold lacks. by rewrite H. Qed.

(** X23: requests without the expected content.  [generate_recipes] and
    [remove_favorite] answer 400 to a body that is null, empty, or an object
    without the required key, and [add_favorite] to a body that is null or
    empty; in each case the world is left as it was.  A body that is a JSON
    array holding the text "ingredients" passes the check of line 254 and
    then raises [AttributeError]; a body that is a number other than zero
    raises [TypeError] in the check itself. *)
Theorem unexpected_bodies (sv : services) (current_user_id : string) (w : world) :
  (forall data,
     truthy data = false \/ (exists d, data = PDict d /\ dict_get d "ingredients" = None) ->
     generate_recipes sv data w
     = (Ok (jsonify_status (PDict [("error", PStr "Missing ingredients")]) 400), w))
  /\ (forall data,
        truthy data = false \/ (exists d, data = PDict d /\ dict_get d "recipe_id" = None) ->
        remove_favorite sv current_user_id data w
        = (Ok (jsonify_status (PDict [("message", PStr "Missing recipe_id")]) 400), w))
  /\ (forall data,
        truthy data = false ->
        add_favorite sv current_user_id data w
        = (Ok (jsonify_status (PDict [("message", PStr "No recipe data provided")]) 400), w))
  /\ (forall l,
        existsb (pyval_eqb (PStr "ingredients")) l = true ->
        generate_recipes sv (PList l) w = (Raise AttributeError, w))
  /\ (forall z, z <> 0%Z -> generate_recipes sv (PInt z) w = (Raise TypeError, w)).
Proof.
  split; [|split; [|split; [|split]]].
  - intros data Hdata.
    assert (lacks data "ingredients" = Ok true) as Hlacks.
    { destruct Hdata as [H|(d & -> & H)]; [by apply lacks_falsy|by apply lacks_without_key]. }
    unfold generate_recipes, prepare_generation, bind, lift. by rewrite Hlacks.
  - intros data Hdata.
    assert (lacks data "recipe_id" = Ok true) as Hlacks.
    { destruct Hdata as [H|(d & -> & H)]; [by apply lacks_falsy|by apply lacks_without_key]. }
    unfold remove_favorite, bind, lift. by rewrite Hlacks.
  - intros data Hdata. unfold add_favorite. by rewrite Hdata.
  - intros l Hl. unfold generate_recipes, prepare_generation, bind, lift, lacks.
    destruct l as [|x l'] eqn:Hd; [discriminate|]. rewrite <- Hd in *.
    assert (truthy (PList l) = true) as -> by (by rewrite Hd).
    unfold py_contains, rbind. by rewrite Hl.
  - intros z Hz. unfold generate_recipes, prepare_generation, bind, lift, lacks.
    cbn [truthy]. by rewrite (proj2 (Z.eqb_neq z 0) Hz).
Qed.

(** ** The query, whatever the request holds *)




(** ** The public search, field by field *)

(** X25: the public search looks at the ingredients and the cuisine of
    the request only: two bodies that agree on these two fields get the
    same answer, whatever their dietary preferences and servings. *)
Theorem public_recipes_ignores_preferences (sv : services) (d1 d2 : doc) (w : world) :
  dict_get d1 "ingredients" = dict_get d2 "ingredients" ->
  dict_get d1 "cuisine" = dict_get d2 "cuisine" ->
  public_recipes sv (PDict d1) w = public_recipes sv (PDict d2) w.
Proof.
  intros Hi Hc. unfold public_recipes, bind, lift, py_get, dict_get_or.
  by rewrite Hi, Hc.
Qed.

Lemma public_recipes_ignores_preferences_witness :
  public_recipes prose_services
    (PDict [("ingredients", PList [PStr "tomato"]); ("dietary", PList [PStr "vegan"]);
            ("servings", PInt 12)]) stocked_world
  = public_recipes prose_services tomato_request stocked_world.
Proof.
  apply (public_recipes_ignores_preferences prose_services
           [("ingredients", PList [PStr "tomato"]); ("dietary", PList [PStr "vegan"]);
            ("servings", PInt 12)]
           [("ingredients", PList [PStr "tomato"])] stocked_world); reflexivity.
Defined.

(** X26: the public search returns the stored fields as they are, not the
    normalized shape: each document it shows has lost its ["_id"], carries
    the identifier as the text ["id"], and holds every other field with the
    value it has in the store. *)
Theorem public_recipes_show_raw_fields (recipe out : doc) :
  pop_id recipe = Ok out ->
  exists oid,
    dict_get recipe "_id" = Some oid
    /\ dict_get out "_id" = None
    /\ dict_get out "id" = Some (PStr (py_str oid))
    /\ forall k, k <> "_id" -> k <> "id" -> dict_get out k = dict_get recipe k.
Proof.
  unfold pop_id. destruct (dict_get recipe "_id") as [oid|]; [|discriminate].
  intros [= <-]. exists oid. split; [done|]. split; [|split].
  - rewrite dict_get_set_ne by done. apply dict_get_del_eq.
  - apply dict_get_set_eq.
  - intros k H1 H2. rewrite dict_get_set_ne by done. by apply dict_get_del_ne.
Qed.

Lemma public_recipes_show_raw_fields_witness :
  exists oid,
    dict_get full_record "_id" = Some oid
    /\ dict_get (dict_set (dict_del full_record "_id") "id" (PStr soup_id)) "_id" = None
    /\ dict_get (dict_set (dict_del full_record "_id") "id" (PStr soup_id)) "id"
       = Some (PStr (py_str oid))
    /\ forall k, k <> "_id" -> k <> "id" ->
         dict_get (dict_set (dict_del full_record "_id") "id" (PStr soup_id)) k
         = dict_get full_record k.
Proof.
  apply (public_recipes_show_raw_fields full_record). reflexivity.
Defined.

(** ** Code fences around the reply *)

Lemma prefix_other (o s : string) (c : ascii) :
  c <> "`"%char -> String.prefix (String "`"%char o) (String c s) = false.
Proof.
  intros Hc. cbn [String.prefix].
  destruct (ascii_dec "`"%char c) as [Heq|]; [by destruct Hc|done].
Qed.

Lemma prefix_app (p r : string) : String.prefix p (p +:+ r) = true.
Proof.
  induction p as [|c p IH]; [by destruct r|]. rewrite string_app_cons.
  cbn [String.prefix]. by destruct (ascii_dec c c).
Qed.

Lemma replace_from_skips (old new p r : string) :
  replace_from old new (String.length p) (p +:+ r) = replace_from old new 0 r.
Proof.
  induction p as [|c p IH]; [by destruct r|].
  rewrite string_app_cons. cbn [String.length replace_from]. apply IH.
Qed.

Lemma replace_from_untouched (o new s : string) :
  all_chars (fun c => negb (Ascii.eqb c "`"%char)) s = true ->
  replace_from (String "`"%char o) new 0 s = s.
Proof.
  induction s as [|c s IH]; [done|]. cbn [all_chars]. intros H.
  apply andb_true_iff in H as [Hc Hs].
  apply negb_true_iff, Ascii.eqb_neq in Hc.
  cbn [replace_from]. by rewrite (prefix_other _ _ _ Hc), (IH Hs).
Qed.

Lemma replace_keeps_closing_fence (u : string) :
  all_chars (fun c => negb (Ascii.eqb c "`"%char)) u = true ->
  replace_from "```json" EmptyString 0 (u +:+ "```") = u +:+ "```".
Proof.
  induction u as [|c u IH]; [done|]. cbn [all_chars]. intros H.
  apply andb_true_iff in H as [Hc Hu].
  apply negb_true_iff, Ascii.eqb_neq in Hc.
  rewrite string_app_cons. cbn [replace_from].
  by rewrite (prefix_other _ _ _ Hc), (IH Hu).
Qed.

Lemma replace_drops_closing_fence (u : string) :
  all_chars (fun c => negb (Ascii.eqb c "`"%char)) u = true ->
  replace_from "```" EmptyString 0 (u +:+ "```") = u.
Proof.
  induction u as [|c u IH]; [done|]. cbn [all_chars]. intros H.
  apply andb_true_iff in H as [Hc Hu].
  apply negb_true_iff, Ascii.eqb_neq in Hc.
  rewrite string_app_cons. cbn [replace_from].
  by rewrite (prefix_other _ _ _ Hc), (IH Hu).
Qed.

Lemma strip_between (c c' : ascii) (m : string) :
  is_space c = false -> is_space c' = false ->
  strip (String c (m +:+ String c' EmptyString)) = String c (m +:+ String c' EmptyString).
Proof.
  intros Hc Hc'. unfold strip. cbn [lstrip]. rewrite Hc.
  cbn [string_rev]. rewrite string_rev_app. cbn [string_rev].
  change (EmptyString +:+ String c' EmptyString) with (String c' EmptyString).
  rewrite !string_app_cons.
  change (EmptyString +:+ string_rev m) with (string_rev m).
  cbn [lstrip]. rewrite Hc'. cbn [string_rev].
  rewrite string_rev_app, string_rev_involutive. cbn [string_rev].
  reflexivity.
Qed.

Lemma strip_space_l (c : ascii) (s : string) :
  is_space c = true -> strip (String c s) = strip s.
Proof. intros Hc. unfold strip. cbn [lstrip]. by rewrite Hc. Qed.

Lemma strip_space_r (c : ascii) (s : string) :
  is_space c = true -> strip (s +:+ String c EmptyString) = strip s.
Proof.
  intros Hc. induction s as [|d s IH].
  - unfold strip. change (EmptyString +:+ String c EmptyString) with (String c EmptyString).
    cbn [lstrip]. by rewrite Hc.
  - rewrite string_app_cons. destruct (is_space d) eqn:Hd.
    + by rewrite !(strip_space_l d) by done.
    + unfold strip. cbn [lstrip]. rewrite Hd. cbn [string_rev].
      rewrite string_rev_app. cbn [string_rev].
      change (EmptyString +:+ String c EmptyString) with (String c EmptyString).
      rewrite !string_app_cons.
      change (EmptyString +:+ string_rev s) with (string_rev s).
      cbn [lstrip]. by rewrite Hc.
Qed.

(** X27: code fences around the reply are removed and nothing else is:
    for a text without backquotes, the cleaned form of the text between a
    [```json] line and a closing fence is the text without its surrounding
    white space, and so is the cleaned form of the text alone. *)
Theorem clean_response_removes_fences (reply : string) :
  all_chars (fun c => negb (Ascii.eqb c "`"%char)) reply = true ->
  clean_response ("```json" +:+ nl +:+ reply +:+ nl +:+ "```") = strip reply
  /\ clean_response reply = strip reply.
Proof.
  intros Hreply. unfold clean_response, replace. split.
  - assert ("```json" +:+ nl +:+ reply +:+ nl +:+ "```"
            = String "`"%char (("``json" +:+ nl +:+ reply +:+ nl +:+ "``")
                               +:+ String "`"%char EmptyString)) as Hshape.
    { rewrite !string_app_assoc. reflexivity. }
    rewrite Hshape, strip_between by done. rewrite <- Hshape.
    assert (all_chars (fun c => negb (Ascii.eqb c "`"%char)) (nl +:+ reply +:+ nl) = true)
      as Hinner.
    { rewrite !all_chars_app, Hreply. reflexivity. }
    assert (replace_from "```json" EmptyString 0
              ("```json" +:+ nl +:+ reply +:+ nl +:+ "```")
            = (nl +:+ reply +:+ nl) +:+ "```") as ->.
    { change ("```json" +:+ nl +:+ reply +:+ nl +:+ "```")
        with (String "`"%char ("``json" +:+ nl +:+ reply +:+ nl +:+ "```")).
      cbn [replace_from].
      change (String "`"%char ("``json" +:+ nl +:+ reply +:+ nl +:+ "```"))
        with ("```json" +:+ nl +:+ reply +:+ nl +:+ "```").
      rewrite prefix_app.
      change (String.length "```json" - 1) with (String.length "``json").
      change (EmptyString
              +:+ replace_from "```json" EmptyString (String.length "``json")
                    ("``json" +:+ nl +:+ reply +:+ nl +:+ "```"))
        with (replace_from "```json" EmptyString (String.length "``json")
                ("``json" +:+ nl +:+ reply +:+ nl +:+ "```")).
      rewrite replace_from_skips.
      replace (nl +:+ reply +:+ nl +:+ "```") with ((nl +:+ reply +:+ nl) +:+ "```")
        by (by rewrite !string_app_assoc).
      by apply replace_keeps_closing_fence. }
    rewrite (replace_drops_closing_fence _ Hinner).
    change (nl +:+ reply +:+ nl) with (String "010"%char (reply +:+ nl)).
    rewrite strip_space_l by done. by apply strip_space_r.
  - assert (all_chars (fun c => negb (Ascii.eqb c "`"%char)) (strip reply) = true)
      as Hstripped by (by apply all_chars_strip).
    rewrite (replace_from_untouched "``json" EmptyString (strip reply) Hstripped).
    rewrite (replace_from_untouched "``" EmptyString (strip reply) Hstripped).
    apply strip_strip.
Qed.

Lemma clean_response_removes_fences_witness :
  clean_response ("```json" +:+ nl +:+ " [1, 2] " +:+ nl +:+ "```") = "[1, 2]"
  /\ clean_response " [1, 2] " = "[1, 2]".
Proof.
  destruct (clean_response_removes_fences " [1, 2] ") as [Hfenced Hbare]; [reflexivity|].
  rewrite Hfenced, Hbare. split; reflexivity.
Defined.
